(** * migrate_database.py: a shallow embedding and its properties

    The script drives [pg_dump] and [pg_restore], probes connections with
    psycopg2 and parses a connection URL with [urllib.parse.urlparse].
    Everything outside the script (the clock, the environment, the
    database server, the external binaries, the file system) is a
    [World] of oracles; the script itself is a program in a small
    state-and-exception monad whose state is the trace of what the
    script did and the files on disk. *)

From Stdlib Require Import ZArith Ascii String List Lia.
From stdpp Require Import base option list strings gmap.
Import ListNotations.

Local Open Scope string_scope.

(** ** Python values and exceptions *)

(** The exception classes the script can meet, all of them subclasses
    of [Exception]: [except Exception] catches every one, [except
    FileNotFoundError] only the first. *)
Inductive exn_class :=
  | FileNotFoundError
  | ValueError
  | TypeError
  | IndexError
  | OtherException (name : string).

Record exn := Exn { exn_cls : exn_class; exn_msg : string }.

Inductive result (A : Type) :=
  | Ok (a : A)
  | Raise (e : exn).
Arguments Ok {A} a.
Arguments Raise {A} e.

Definition is_FileNotFoundError (e : exn) : bool :=
  match exn_cls e with FileNotFoundError => true | _ => false end.

(** A value that is a [str] or [None]. *)
Abbreviation pystr := (option string).

(** Truth value of a [str]-or-[None]: [None] and [''] are falsy. *)
Definition truthy (v : pystr) : bool :=
  match v with
  | None => false
  | Some s => negb (String.eqb s "")
  end.

(** A cell of a result row. *)
Inductive pyval :=
  | VNone
  | VInt (n : Z)
  | VStr (s : string).

Definition pyval_truthy (v : pyval) : bool :=
  match v with
  | VNone => false
  | VInt n => negb (n =? 0)%Z
  | VStr s => negb (String.eqb s "")
  end.

(** ** Strings

    A [string] stands for a Python [str] whose code points are below 256. *)
Module Str.

Local Open Scope nat_scope.

Definition code (c : ascii) : nat := nat_of_ascii c.

Definition is_ascii (c : ascii) : bool := code c <? 128.
Definition is_upper (c : ascii) : bool := (65 <=? code c) && (code c <=? 90).
Definition is_lower (c : ascii) : bool := (97 <=? code c) && (code c <=? 122).
Definition is_ascii_alpha (c : ascii) : bool := is_upper c || is_lower c.
Definition is_ascii_digit (c : ascii) : bool := (48 <=? code c) && (code c <=? 57).

(** [str.lower] on one code point: A-Z and the Latin-1 capitals
    (U+00C0..U+00DE but U+00D7) move up by 32. *)
Definition lower_char (c : ascii) : ascii :=
  let n := code c in
  if is_upper c then ascii_of_nat (n + 32)
  else if (192 <=? n) && (n <=? 222) && negb (n =? 215) then ascii_of_nat (n + 32)
  else c.

Fixpoint map (f : ascii -> ascii) (s : string) : string :=
  match s with
  | EmptyString => EmptyString
  | String a r => String (f a) (map f r)
  end.

Definition lower : string -> string := map lower_char.

Fixpoint forallb (p : ascii -> bool) (s : string) : bool :=
  match s with
  | EmptyString => true
  | String a r => p a && forallb p r
  end.

Fixpoint existsb (p : ascii -> bool) (s : string) : bool :=
  match s with
  | EmptyString => false
  | String a r => p a || existsb p r
  end.

(** [c in s] *)
Definition contains (c : ascii) (s : string) : bool := existsb (Ascii.eqb c) s.

(** [s.lstrip(chars)], the characters given as a predicate. *)
Fixpoint lstrip (p : ascii -> bool) (s : string) : string :=
  match s with
  | EmptyString => EmptyString
  | String a r => if p a then lstrip p r else s
  end.

(** [s.replace(c, '')] for every [c] with [p c]. *)
Fixpoint remove (p : ascii -> bool) (s : string) : string :=
  match s with
  | EmptyString => EmptyString
  | String a r => if p a then remove p r else String a (remove p r)
  end.

(** Cut at the first character satisfying [p]: the part before it, and
    the rest from it on (empty when there is none). *)
Fixpoint break (p : ascii -> bool) (s : string) : string * string :=
  match s with
  | EmptyString => (EmptyString, EmptyString)
  | String a r =>
      if p a then (EmptyString, s)
      else let '(b, t) := break p r in (String a b, t)
  end.

(** The text before and after the first [c], when there is one. *)
Fixpoint split1 (c : ascii) (s : string) : option (string * string) :=
  match s with
  | EmptyString => None
  | String a r =>
      if Ascii.eqb a c then Some (EmptyString, r)
      else match split1 c r with
           | Some (b, t) => Some (String a b, t)
           | None => None
           end
  end.

(** The text before and after the last [c], when there is one. *)
Fixpoint rsplit1 (c : ascii) (s : string) : option (string * string) :=
  match s with
  | EmptyString => None
  | String a r =>
      match rsplit1 c r with
      | Some (b, t) => Some (String a b, t)
      | None => if Ascii.eqb a c then Some (EmptyString, r) else None
      end
  end.

(** [s.partition(c)] as [(head, found, tail)]. *)
Definition partition (c : ascii) (s : string) : string * bool * string :=
  match split1 c s with
  | Some (b, t) => (b, true, t)
  | None => (s, false, EmptyString)
  end.

(** [s.rpartition(c)] as [(head, found, tail)]. *)
Definition rpartition (c : ascii) (s : string) : string * bool * string :=
  match rsplit1 c s with
  | Some (b, t) => (b, true, t)
  | None => (EmptyString, false, s)
  end.

Definition starts2 (c d : ascii) (s : string) : bool :=
  match s with
  | String a (String b _) => Ascii.eqb a c && Ascii.eqb b d
  | _ => false
  end.

Definition is_empty (s : string) : bool :=
  match s with EmptyString => true | _ => false end.

(** [int(s)] for a string of ASCII digits. *)
Fixpoint int_acc (acc : Z) (s : string) : Z :=
  match s with
  | EmptyString => acc
  | String a r => int_acc (10 * acc + Z.of_nat (code a - 48)) r
  end.
Definition int (s : string) : Z := int_acc 0 s.

(** [s.isdigit() and s.isascii()] *)
Definition is_digits (s : string) : bool :=
  negb (is_empty s) && forallb is_ascii_digit s.

Definition digit (n : Z) : ascii := ascii_of_nat (48 + Z.to_nat n).

(** Decimal digits of a non-negative number, most significant first,
    [fuel] bounding the number of digits. *)
Fixpoint digits (fuel : nat) (n : Z) (acc : string) : string :=
  match fuel with
  | O => acc
  | S f =>
      let acc' := String (digit (n mod 10)) acc in
      if (n / 10 =? 0)%Z then acc' else digits f (n / 10) acc'
  end.

(** [str(n)] for an [int]. *)
Definition of_Z (n : Z) : string :=
  if (n <? 0)%Z then String "-" (digits (S (Z.to_nat (Z.log2 (- n)))) (- n) EmptyString)
  else digits (S (Z.to_nat (Z.log2 n))) n EmptyString.

(** [n] printed in at least [w] digits, zero padded ([%02d] and the like). *)
Fixpoint zeros (k : nat) : string :=
  match k with O => EmptyString | S k' => String "0" (zeros k') end.
Definition pad (w : nat) (n : Z) : string :=
  let d := of_Z n in zeros (w - String.length d) +:+ d.

End Str.

(** ** [urllib.parse.urlparse]

    The library function the script calls, after CPython 3.12's
    [urllib/parse.py], with the accessors of its result that the script
    reads.  The two checks that need Unicode tables or the [ipaddress]
    module are parameters. *)
Module Url.

Record ParseResult := {
  scheme : string;
  netloc : string;
  path : string;
  params : string;
  query : string;
  fragment : string
}.

Definition value_error (m : string) : exn := Exn ValueError m.

Definition is_c0_or_space (c : ascii) : bool := (Str.code c <=? 32)%nat.
Definition is_tab_cr_lf (c : ascii) : bool :=
  let n := Str.code c in ((n =? 9) || (n =? 10) || (n =? 13))%nat.
Definition is_scheme_char (c : ascii) : bool :=
  Str.is_ascii_alpha c || Str.is_ascii_digit c || Str.contains c "+-.".
Definition is_netloc_delim (c : ascii) : bool := Str.contains c "/?#".

(** [uses_params] *)
Definition uses_params : list string :=
  [""; "ftp"; "hdl"; "prospero"; "http"; "imap"; "https"; "shttp"; "rtsp";
   "rtspu"; "sip"; "sips"; "mms"; "sftp"; "tel"].

(** The scheme, when the text before the first colon is one, and the
    rest of the URL. *)
Definition split_scheme (url : string) : string * string :=
  match Str.split1 ":" url with
  | Some (String a _ as pre, rest) =>
      if Str.is_ascii a && Str.is_ascii_alpha a && Str.forallb is_scheme_char pre
      then (Str.lower pre, rest)
      else (EmptyString, url)
  | _ => (EmptyString, url)
  end.

Definition drop2 (s : string) : string :=
  match s with String _ (String _ r) => r | _ => EmptyString end.

(** [_splitnetloc(url, 2)] *)
Definition splitnetloc (url : string) : string * string :=
  Str.break is_netloc_delim (drop2 url).

(** [url.split(c, 1)] when [c in url]. *)
Definition cut (c : ascii) (url : string) : string * string :=
  match Str.split1 c url with
  | Some (a, b) => (a, b)
  | None => (url, EmptyString)
  end.

(** [_splitparams] *)
Definition splitparams (url : string) : string * string :=
  match Str.rsplit1 "/" url with
  | Some (h, t) =>
      match Str.split1 ";" t with
      | Some (a, b) => (h +:+ String "/" a, b)
      | None => (url, EmptyString)
      end
  | None => cut ";" url
  end.

Section Parse.

(** [_check_bracketed_host] does not raise. *)
Variable bracketed_host_ok : string -> bool.
(** [_checknetloc] does not raise, for a netloc that is not all ASCII. *)
Variable netloc_nfkc_ok : string -> bool.

Definition check_brackets (netloc : string) : result unit :=
  let o := Str.contains "[" netloc in
  let c := Str.contains "]" netloc in
  if (o && negb c) || (c && negb o) then Raise (value_error "Invalid IPv6 URL")
  else if o && c then
    let '(_, _, after) := Str.partition "[" netloc in
    let '(bracketed, _, _) := Str.partition "]" after in
    if bracketed_host_ok bracketed then Ok tt
    else Raise (value_error "invalid bracketed host")
  else Ok tt.

Definition checknetloc (netloc : string) : result unit :=
  if Str.is_empty netloc || Str.forallb Str.is_ascii netloc then Ok tt
  else if netloc_nfkc_ok netloc then Ok tt
  else Raise (value_error "netloc contains invalid characters under NFKC normalization").

(** [urlsplit(url)] as a [ParseResult] with empty [params]. *)
Definition urlsplit (url0 : string) : result ParseResult :=
  let url := Str.remove is_tab_cr_lf (Str.lstrip is_c0_or_space url0) in
  let '(sch, url) := split_scheme url in
  let located :=
    if Str.starts2 "/" "/" url then
      let '(nl, rest) := splitnetloc url in
      match check_brackets nl with
      | Ok _ => Ok (nl, rest)
      | Raise e => Raise e
      end
    else Ok (EmptyString, url) in
  match located with
  | Raise e => Raise e
  | Ok (nl, url) =>
      let '(url, frag) := cut "#" url in
      let '(url, qry) := cut "?" url in
      match checknetloc nl with
      | Raise e => Raise e
      | Ok _ =>
          Ok {| scheme := sch; netloc := nl; path := url;
                params := EmptyString; query := qry; fragment := frag |}
      end
  end.

Definition urlparse (url : string) : result ParseResult :=
  match urlsplit url with
  | Raise e => Raise e
  | Ok r =>
      if bool_decide (scheme r ∈ uses_params) && Str.contains ";" (path r) then
        let '(p, ps) := splitparams (path r) in
        Ok {| scheme := scheme r; netloc := netloc r; path := p;
              params := ps; query := query r; fragment := fragment r |}
      else Ok r
  end.

End Parse.

(** [_userinfo] *)
Definition userinfo (r : ParseResult) : pystr * pystr :=
  let '(info, have_info, _) := Str.rpartition "@" (netloc r) in
  if have_info then
    let '(user, have_password, pw) := Str.partition ":" info in
    (Some user, if have_password then Some pw else None)
  else (None, None).

(** [_hostinfo] *)
Definition hostinfo (r : ParseResult) : string * pystr :=
  let '(_, _, hinfo) := Str.rpartition "@" (netloc r) in
  let '(_, have_open_br, bracketed) := Str.partition "[" hinfo in
  let '(host, prt) :=
    if have_open_br then
      let '(h, _, p) := Str.partition "]" bracketed in
      let '(_, _, p') := Str.partition ":" p in (h, p')
    else
      let '(h, _, p) := Str.partition ":" hinfo in (h, p) in
  (host, if Str.is_empty prt then None else Some prt).

Definition username (r : ParseResult) : pystr := fst (userinfo r).
Definition password (r : ParseResult) : pystr := snd (userinfo r).

Definition hostname (r : ParseResult) : pystr :=
  let host := fst (hostinfo r) in
  if Str.is_empty host then None
  else
    let '(h, found, zone) := Str.partition "%" host in
    Some (Str.lower h +:+ (if found then "%" else "") +:+ zone).

(** [sys.int_info.default_max_str_digits]: [int(s)] raises [ValueError]
    for a string of more digits. *)
Definition max_str_digits : Z := 4300.

(** The [port] property: [None], an [int] in 0..65535, or [ValueError]. *)
Definition port (r : ParseResult) : result (option Z) :=
  match snd (hostinfo r) with
  | None => Ok None
  | Some p =>
      if Str.is_digits p then
        if (max_str_digits <? Z.of_nat (String.length p))%Z then
          Raise (value_error "Exceeds the limit (4300 digits) for integer string conversion")
        else
          let n := Str.int p in
          if (0 <=? n)%Z && (n <=? 65535)%Z then Ok (Some n)
          else Raise (value_error "Port out of range 0-65535")
      else Raise (value_error "Port could not be cast to integer value")
  end.

End Url.

(** ** Connection descriptors *)

(** The [dict] the script passes around: [port] and [database] are
    always a [str]; the other three are [None] when the URL lacks them. *)
Record Config := {
  host : pystr;
  port : string;
  database : string;
  username : pystr;
  password : pystr
}.

Section ParseDatabaseUrl.

Variable bracketed_host_ok : string -> bool.
Variable netloc_nfkc_ok : string -> bool.

(** [DatabaseMigrator.parse_database_url] *)
Definition parse_database_url (database_url : string) : result Config :=
  match Url.urlparse bracketed_host_ok netloc_nfkc_ok database_url with
  | Raise e => Raise e
  | Ok parsed =>
      let h := Url.hostname parsed in
      match Url.port parsed with
      | Raise e => Raise e
      | Ok p =>
          let p_or := match p with
                      | Some n => if (n =? 0)%Z then 5432%Z else n
                      | None => 5432%Z
                      end in
          Ok {| host := h;
                port := Str.of_Z p_or;
                database := Str.lstrip (Ascii.eqb "/") (Url.path parsed);
                username := Url.username parsed;
                password := Url.password parsed |}
      end
  end.

End ParseDatabaseUrl.

(** ** The world outside the script *)

(** [datetime.now()] *)
Record DateTime := {
  year : Z;
  month : Z;
  day : Z;
  hour : Z;
  minute : Z;
  second : Z;
  microsecond : Z
}.

(** A [datetime] as the clock gives it (years below 1000 print without
    padding on some platforms; the clock is never there). *)
Definition valid_datetime (t : DateTime) : Prop :=
  (1000 <= year t <= 9999 /\ 1 <= month t <= 12 /\ 1 <= day t <= 31 /\
   0 <= hour t <= 23 /\ 0 <= minute t <= 59 /\ 0 <= second t <= 59 /\
   0 <= microsecond t <= 999999)%Z.

(** [t.strftime("%Y%m%d_%H%M%S")] *)
Definition strftime (t : DateTime) : string :=
  Str.pad 4 (year t) +:+ Str.pad 2 (month t) +:+ Str.pad 2 (day t) +:+ "_" +:+
  Str.pad 2 (hour t) +:+ Str.pad 2 (minute t) +:+ Str.pad 2 (second t).

(** The three diagnostic queries of [get_database_info]. *)
Inductive query :=
  | QDatabaseSize   (* SELECT pg_size_pretty(pg_database_size(current_database())) *)
  | QTableCount     (* SELECT COUNT( * ) FROM information_schema.tables WHERE table_schema = 'public' *)
  | QTotalRows.     (* SELECT SUM(n_tup_ins + n_tup_upd + n_tup_del) FROM pg_stat_user_tables *)

(** The [dict] [get_database_info] returns. *)
Record DbInfo := {
  info_size : pyval;
  info_tables : pyval;
  info_rows : pyval
}.

(** What the script prints, one constructor per [print] of the source
    (without the pictograms). *)
Inductive msg :=
  | MConnected (c : Config)
  | MConnectFailed (c : Config)
  | MError (e : exn)
  | MCreatingBackup
  | MBackupCreated (file : string)
  | MFileSize (bytes : Z)
  | MBackupFailed (stderr : string)
  | MPgDumpNotFound
  | MRestoring (file : string)
  | MRestored
  | MRestoreWarnings (stderr : string)
  | MPgRestoreNotFound
  | MInfoError (e : exn)
  | MDatabaseInfo (i : DbInfo)
  | MLocalInfoHeader
  | MInfoSize (v : pyval)
  | MInfoTables (v : pyval)
  | MInfoRows (v : pyval)
  | MTestingLocal
  | MTestingTarget
  | MRestoreArgsRequired
  | MTargetUrlRequired
  | MStartingMigration
  | MStepTesting
  | MCannotConnectLocal
  | MCannotConnectTarget
  | MStepBackup
  | MBackupFailedAbort
  | MStepRestore
  | MMigrationCompleted
  | MCanDeleteBackup (file : string)
  | MMigrationFailedRestore
  | MText (line : string).

(** What the script does to the world, in the order it does it. *)
Inductive event :=
  | EPrint (m : msg)
  | EConnect (c : Config)
  | EClose
  | ECursor
  | EExecute (q : query)
  | EFetchone
  | ERun (argv : list string) (pgpassword : string)
  | EGetsize (file : string).

(** The state a run threads: what happened so far, and the files on disk
    with their sizes in bytes. *)
Record State := {
  trace : list event;
  files : gmap string Z
}.

(** A finished external process. *)
Record Completed := {
  returncode : Z;
  stderr : string
}.

(** The answers of everything outside the script.  Each may depend on
    what happened before. *)
Record World := {
  (** [os.getenv], after [load_dotenv] *)
  getenv : string -> option string;
  (** [datetime.now()] *)
  now : State -> DateTime;
  (** [psycopg2.connect]: the exception it raises, if any *)
  connect : State -> Config -> option exn;
  (** [conn.close()]: the exception it raises, if any *)
  close : State -> option exn;
  (** [cursor.execute]: the exception it raises, if any *)
  execute : State -> query -> option exn;
  (** [cursor.fetchone]: a row or [None] *)
  fetchone : State -> result (option (list pyval));
  (** [subprocess.run(argv, env)] with [PGPASSWORD] in [env]: how the
      process ended, and the files it left *)
  run : State -> list string -> string -> result Completed * gmap string Z
}.

(** ** The monad of the script: state that survives exceptions *)

Definition M (A : Type) : Type := State -> result A * State.

Definition ret {A} (a : A) : M A := fun st => (Ok a, st).

Definition bind {A B} (c : M A) (k : A -> M B) : M B :=
  fun st =>
    match c st with
    | (Ok a, st') => k a st'
    | (Raise e, st') => (Raise e, st')
    end.

Definition raise {A} (e : exn) : M A := fun st => (Raise e, st).

(** [try: c  except <those e with catches e>: h e] *)
Definition try_except {A} (c : M A) (catches : exn -> bool) (h : exn -> M A) : M A :=
  fun st =>
    match c st with
    | (Ok a, st') => (Ok a, st')
    | (Raise e, st') => if catches e then h e st' else (Raise e, st')
    end.

Definition lift {A} (r : result A) : M A := fun st => (r, st).

Definition emit (e : event) : M unit :=
  fun st => (Ok tt, {| trace := trace st ++ [e]; files := files st |}).

Definition print (m : msg) : M unit := emit (EPrint m).

Declare Scope script_scope.
Delimit Scope script_scope with script.
Notation "x <- c ;; k" := (bind c (fun x => k))
  (at level 100, c at next level, right associativity) : script_scope.
Notation "c ;; k" := (bind c (fun _ => k)) : script_scope.
Local Open Scope script_scope.

Definition any_exception (_ : exn) : bool := true.

(** ** Command line *)

Inductive Action :=
  | Backup
  | Restore
  | Migrate
  | Info
  | Test
  | DeployRailway
  | DeployHeroku.

(** The namespace [parser.parse_args()] returns. *)
Record Args := {
  action : Action;
  backup_file : pystr;
  target_url : pystr;
  target_host : pystr;
  target_port : string;
  target_db : pystr;
  target_user : pystr;
  target_password : pystr
}.

(** ** The script *)

(** The strings of a list that holds no [None]. *)
Fixpoint all_str (l : list pystr) : option (list string) :=
  match l with
  | [] => Some []
  | Some s :: r => match all_str r with Some r' => Some (s :: r') | None => None end
  | None :: _ => None
  end.

(** [row[0]] for what [fetchone] returned. *)
Definition subscript0 (row : option (list pyval)) : result pyval :=
  match row with
  | None => Raise (Exn TypeError "'NoneType' object is not subscriptable")
  | Some [] => Raise (Exn IndexError "tuple index out of range")
  | Some (v :: _) => Ok v
  end.

Definition snoc (st : State) (e : event) : State :=
  {| trace := trace st ++ [e]; files := files st |}.

Section Script.

Variable bracketed_host_ok : string -> bool.
Variable netloc_nfkc_ok : string -> bool.
Variable w : World.

(** [os.getenv(name, fallback)] *)
Definition getenv_or (name fallback : string) : string :=
  default fallback (getenv w name).

(** [DatabaseMigrator.__init__]: [self.local_config] *)
Definition local_config : Config :=
  {| host := Some (getenv_or "DB_HOST" "localhost");
     port := getenv_or "DB_PORT" "5432";
     database := getenv_or "DB_NAME" "ecommerce";
     username := Some (getenv_or "DB_USERNAME" "postgres");
     password := Some (getenv_or "DB_PASSWORD" "postgres") |}.

Definition psycopg2_connect (config : Config) : M unit :=
  fun st =>
    match connect w st config with
    | None => (Ok tt, snoc st (EConnect config))
    | Some e => (Raise e, snoc st (EConnect config))
    end.

(** [conn.close()] *)
Definition psycopg2_close : M unit :=
  fun st =>
    match close w st with
    | None => (Ok tt, snoc st EClose)
    | Some e => (Raise e, snoc st EClose)
    end.

Definition cursor_execute (q : query) : M unit :=
  fun st =>
    match execute w st q with
    | None => (Ok tt, snoc st (EExecute q))
    | Some e => (Raise e, snoc st (EExecute q))
    end.

Definition cursor_fetchone : M (option (list pyval)) :=
  fun st => (fetchone w st, snoc st EFetchone).

(** [subprocess.run(cmd, env=env, capture_output=True, text=True)]: a
    [None] among the arguments or as [PGPASSWORD] is a [TypeError]
    before any process starts. *)
Definition subprocess_run (cmd : list pystr) (pgpassword : pystr) : M Completed :=
  match all_str cmd, pgpassword with
  | Some argv, Some pw =>
      fun st =>
        let '(r, fs) := run w st argv pw in
        (r, {| trace := trace st ++ [ERun argv pw]; files := fs |})
  | _, _ => raise (Exn TypeError "expected str, bytes or os.PathLike object, not NoneType")
  end.

(** [os.path.getsize] *)
Definition getsize (file : string) : M Z :=
  fun st =>
    match files st !! file with
    | Some n => (Ok n, snoc st (EGetsize file))
    | None => (Raise (Exn FileNotFoundError file), snoc st (EGetsize file))
    end.

(** [DatabaseMigrator.test_connection] *)
Definition test_connection (config : Config) : M bool :=
  try_except
    (psycopg2_connect config ;;
     psycopg2_close ;;
     print (MConnected config) ;;
     ret true)
    any_exception
    (fun e =>
       print (MConnectFailed config) ;;
       print (MError e) ;;
       ret false).

(** The name [backup_database] makes up when it is given none. *)
Definition synthesized_name (t : DateTime) : string :=
  "backup_" +:+ database local_config +:+ "_" +:+ strftime t +:+ ".dump".

(** Lines 49-51: the file [backup_database] writes to. *)
Definition backup_target (backup_file : pystr) : M string :=
  match backup_file with
  | Some f => if String.eqb f "" then fun st => (Ok (synthesized_name (now w st)), st)
              else ret f
  | None => fun st => (Ok (synthesized_name (now w st)), st)
  end.

Definition pg_dump_cmd (file : string) : list pystr :=
  [Some "pg_dump";
   Some "-h"; host local_config;
   Some "-p"; Some (port local_config);
   Some "-U"; username local_config;
   Some "-d"; Some (database local_config);
   Some "-Fc";
   Some "-f"; Some file].

(** [DatabaseMigrator.backup_database] *)
Definition backup_database (backup_file : pystr) : M pystr :=
  file <- backup_target backup_file ;;
  print MCreatingBackup ;;
  try_except
    (result <- subprocess_run (pg_dump_cmd file) (password local_config) ;;
     if (returncode result =? 0)%Z then
       print (MBackupCreated file) ;;
       size <- getsize file ;;
       print (MFileSize size) ;;
       ret (Some file)
     else
       print (MBackupFailed (stderr result)) ;;
       ret None)
    is_FileNotFoundError
    (fun _ =>
       print MPgDumpNotFound ;;
       ret None).

Definition pg_restore_cmd (file : string) (target_config : Config) : list pystr :=
  [Some "pg_restore";
   Some "-h"; host target_config;
   Some "-p"; Some (port target_config);
   Some "-U"; username target_config;
   Some "-d"; Some (database target_config);
   Some "--clean";
   Some "--if-exists";
   Some file].

(** [DatabaseMigrator.restore_database] *)
Definition restore_database (file : string) (target_config : Config) : M bool :=
  print (MRestoring file) ;;
  try_except
    (result <- subprocess_run (pg_restore_cmd file target_config) (password target_config) ;;
     if (returncode result =? 0)%Z then
       print MRestored ;;
       ret true
     else
       print (MRestoreWarnings (stderr result)) ;;
       ret true)
    is_FileNotFoundError
    (fun _ =>
       print MPgRestoreNotFound ;;
       ret false).

(** One query of [get_database_info]: [execute], then [fetchone()]. *)
Definition fetch (q : query) : M (option (list pyval)) :=
  cursor_execute q ;;
  cursor_fetchone.

(** The [try] body of [get_database_info]. *)
Definition database_info_body (config : Config) : M (option DbInfo) :=
  psycopg2_connect config ;;
  (* [conn.cursor()]: a cursor object on the connection just opened,
     built on the client without a round trip to the server *)
  emit ECursor ;;
  row <- fetch QDatabaseSize ;;
  size <- lift (subscript0 row) ;;
  row <- fetch QTableCount ;;
  table_count <- lift (subscript0 row) ;;
  result <- fetch QTotalRows ;;
  r0 <- lift (subscript0 result) ;;
  let total_rows := if pyval_truthy r0 then r0 else VInt 0 in
  psycopg2_close ;;
  ret (Some {| info_size := size; info_tables := table_count; info_rows := total_rows |}).

(** [DatabaseMigrator.get_database_info] *)
Definition get_database_info (config : Config) : M (option DbInfo) :=
  try_except
    (database_info_body config)
    any_exception
    (fun e =>
       print (MInfoError e) ;;
       ret None).

Fixpoint print_lines (l : list string) : M unit :=
  match l with
  | [] => ret tt
  | x :: r => print (MText x) ;; print_lines r
  end.

(** [DatabaseMigrator.deploy_to_railway] *)
Definition deploy_to_railway : M unit :=
  print_lines
    ["Deploying to Railway...";
     "1. Make sure Railway CLI is installed: npm install -g @railway/cli";
     "2. Run: railway login";
     "3. Run: railway init";
     "4. Run: railway add postgresql";
     "5. Get your DATABASE_URL: railway variables";
     "6. Use the migrate command with your Railway DATABASE_URL"].

(** [DatabaseMigrator.deploy_to_heroku] *)
Definition deploy_to_heroku : M unit :=
  print_lines
    ["Deploying to Heroku...";
     "1. Make sure Heroku CLI is installed";
     "2. Run: heroku create your-app-name";
     "3. Run: heroku addons:create heroku-postgresql:hobby-dev";
     "4. Get your DATABASE_URL: heroku config:get DATABASE_URL";
     "5. Use the migrate command with your Heroku DATABASE_URL"].

Definition parse_url (url : string) : M Config :=
  lift (parse_database_url bracketed_host_ok netloc_nfkc_ok url).

(** The [migrate] branch of [main] once [--target-url] is there. *)
Definition migrate (url : string) : M unit :=
  print MStartingMigration ;;
  print MStepTesting ;;
  ok <- test_connection local_config ;;
  if negb ok then print MCannotConnectLocal
  else
    target_config <- parse_url url ;;
    ok <- test_connection target_config ;;
    if negb ok then print MCannotConnectTarget
    else
      print MStepBackup ;;
      backup <- backup_database None ;;
      match backup with
      | Some file =>
          if String.eqb file "" then print MBackupFailedAbort
          else
            print MStepRestore ;;
            ok <- restore_database file target_config ;;
            if ok then
              print MMigrationCompleted ;;
              print (MCanDeleteBackup file)
            else print MMigrationFailedRestore
      | None => print MBackupFailedAbort
      end.

(** [main], after [parser.parse_args()]. *)
Definition main (args : Args) : M unit :=
  match action args with
  | Backup =>
      backup <- backup_database (backup_file args) ;;
      if truthy backup then
        info <- get_database_info local_config ;;
        match info with
        | Some i => print (MDatabaseInfo i)
        | None => ret tt
        end
      else ret tt
  | Info =>
      print MLocalInfoHeader ;;
      info <- get_database_info local_config ;;
      match info with
      | Some i =>
          print (MInfoSize (info_size i)) ;;
          print (MInfoTables (info_tables i)) ;;
          print (MInfoRows (info_rows i))
      | None => ret tt
      end
  | Test =>
      print MTestingLocal ;;
      test_connection local_config ;;
      match target_url args with
      | Some url =>
          if String.eqb url "" then ret tt
          else
            print MTestingTarget ;;
            target_config <- parse_url url ;;
            test_connection target_config ;;
            ret tt
      | None => ret tt
      end
  | Restore =>
      match backup_file args, target_url args with
      | Some file, Some url =>
          if String.eqb file "" || String.eqb url "" then print MRestoreArgsRequired
          else
            target_config <- parse_url url ;;
            restore_database file target_config ;;
            ret tt
      | _, _ => print MRestoreArgsRequired
      end
  | Migrate =>
      match target_url args with
      | Some url =>
          if String.eqb url "" then print MTargetUrlRequired
          else migrate url
      | None => print MTargetUrlRequired
      end
  | DeployRailway => deploy_to_railway
  | DeployHeroku => deploy_to_heroku
  end.

End Script.

(** ** Derived names *)

(** The argument vector of [pg_dump_cmd], which holds no [None]. *)
Definition pg_dump_argv (w : World) (file : string) : list string :=
  ["pg_dump";
   "-h"; getenv_or w "DB_HOST" "localhost";
   "-p"; getenv_or w "DB_PORT" "5432";
   "-U"; getenv_or w "DB_USERNAME" "postgres";
   "-d"; getenv_or w "DB_NAME" "ecommerce";
   "-Fc";
   "-f"; file].

Definition local_password (w : World) : string := getenv_or w "DB_PASSWORD" "postgres".

(** The file [backup_target] settles on. *)
Definition chosen_file (w : World) (backup_file : pystr) (st : State) : string :=
  if truthy backup_file then default "" backup_file
  else synthesized_name w (now w st).





(** [s] does not begin with a path separator. *)
Definition bare (s : string) : Prop := Str.lstrip (Ascii.eqb "/") s = s.

(** The first column of the row a query returns: [execute], then
    [fetchone()[0]]. *)
Definition first_column (w : World) (q : query) : M pyval :=
  row <- fetch w q ;;
  lift (subscript0 row).

(** The state of [get_database_info] once it holds a cursor. *)
Definition with_cursor (cfg : Config) (st : State) : State :=
  snoc (snoc st (EConnect cfg)) ECursor.

(** [result[0] if result[0] else 0] *)
Definition or_zero (v : pyval) : pyval := if pyval_truthy v then v else VInt 0.

(** The state once a process has been started from [st] and left [fs]. *)
Definition ran (st : State) (argv : list string) (pw : string) (fs : gmap string Z) : State :=
  {| trace := trace st ++ [ERun argv pw]; files := fs |}.

(** ** The file name format of the specification

    [backup_<dbname>_<YYYYMMDD_HHMMSS>.dump], written out digit by digit
    to compare [synthesized_name] with. *)

Definition two_digits (n : Z) : string :=
  String (Str.digit (n / 10)) (String (Str.digit (n mod 10)) EmptyString).

Definition four_digits (n : Z) : string :=
  String (Str.digit (n / 1000)) (String (Str.digit (n / 100 mod 10)) (two_digits (n mod 100))).

Definition spec_timestamp (t : DateTime) : string :=
  four_digits (year t) +:+ two_digits (month t) +:+ two_digits (day t) +:+ "_" +:+
  two_digits (hour t) +:+ two_digits (minute t) +:+ two_digits (second t).

Definition spec_backup_name (dbname : string) (t : DateTime) : string :=
  "backup_" +:+ dbname +:+ "_" +:+ spec_timestamp t +:+ ".dump".

(** Two instants within the same second. *)
Definition same_second (t1 t2 : DateTime) : Prop :=
  year t1 = year t2 /\ month t1 = month t2 /\ day t1 = day t2 /\
  hour t1 = hour t2 /\ minute t1 = minute t2 /\ second t1 = second t2.

(** ** Observations on a run *)

(** An external process was started. *)
Definition is_run (e : event) : bool :=
  match e with ERun _ _ => true | _ => false end.

(** [pg_dump] was started. *)
Definition is_pg_dump (e : event) : bool :=
  match e with ERun ("pg_dump" :: _) _ => true | _ => false end.

(** The events a step added to the trace. *)
Definition added (st st' : State) (l : list event) : Prop :=
  trace st' = (trace st ++ l)%list.

(** A step that starts no external process and leaves the files alone. *)
Definition quiet (st st' : State) : Prop :=
  (exists l, added st st' l /\ Forall (fun e => is_run e = false) l) /\
  files st' = files st.

(** Where a migration stands when it probes the source. *)
Definition at_source_probe (st : State) : State :=
  snoc (snoc st (EPrint MStartingMigration)) (EPrint MStepTesting).

(** Every event a step added satisfies [P]. *)
Definition only (P : event -> Prop) (st st' : State) : Prop :=
  exists l, added st st' l /\ Forall P l.

(** Every event the computation [c] adds, from any state and whatever
    its outcome, satisfies [P]. *)
Definition Only {A} (P : event -> Prop) (c : M A) : Prop :=
  forall st r st', c st = (r, st') -> only P st st'.

(** An event that, if it starts [pg_dump], writes to a synthesized name. *)
Definition dump_to_synthesized (w : World) (e : event) : Prop :=
  is_pg_dump e = true ->
  exists s, e = ERun (pg_dump_argv w (synthesized_name w (now w s))) (local_password w).

(** The command line with another [--backup-file]. *)
Definition with_backup_file (b : pystr) (args : Args) : Args :=
  {| action := action args; backup_file := b; target_url := target_url args;
     target_host := target_host args; target_port := target_port args;
     target_db := target_db args; target_user := target_user args;
     target_password := target_password args |}.

(** The last thing a run did. *)
Definition last_event (st : State) : option event := last (trace st).

(** ** Sample worlds for concrete runs *)

Definition sample_now : DateTime :=
  {| year := 2024; month := 3; day := 7; hour := 9; minute := 5; second := 1;
     microsecond := 250000 |}.

Definition st0 : State := {| trace := []; files := ∅ |}.

(** A world where only the hosts [up] listed answer, [pg_dump] ends
    with [dump_rc] and writes its archive when that is zero, and
    [pg_restore] ends with [restore_rc]. *)
Definition sample_world (up : list string) (dump_rc restore_rc : Z) : World :=
  {| getenv := fun _ => None;
     now := fun _ => sample_now;
     connect := fun _ c =>
       match host c with
       | Some h => if bool_decide (h ∈ up) then None
                   else Some (Exn (OtherException "OperationalError") "could not connect")
       | None => Some (Exn (OtherException "OperationalError") "no host")
       end;
     close := fun _ => None;
     execute := fun _ _ => None;
     fetchone := fun _ => Ok (Some [VInt 3]);
     run := fun st argv _ =>
       match argv with
       | "pg_dump" :: _ =>
           (Ok {| returncode := dump_rc; stderr := "dump: error" |},
            if (dump_rc =? 0)%Z then <[default "" (last argv) := 2048%Z]> (files st)
            else files st)
       | _ => (Ok {| returncode := restore_rc; stderr := "restore: warning" |}, files st)
       end |}.

(** A world without the PostgreSQL client tools. *)
Definition bare_world : World :=
  {| getenv := fun _ => None;
     now := fun _ => sample_now;
     connect := fun _ _ => None;
     close := fun _ => None;
     execute := fun _ q =>
       match q with
       | QTableCount => Some (Exn (OtherException "ProgrammingError") "permission denied")
       | _ => None
       end;
     fetchone := fun _ => Ok (Some [VStr "8 MB"]);
     run := fun st argv _ => (Raise (Exn FileNotFoundError (default "" (head argv))), files st) |}.

Definition ok_check (_ : string) : bool := true.

Definition sample_name : string := "backup_ecommerce_20240307_090501.dump".

Definition sample_url : string := "postgresql://u:p@h:1234/dbname".

Definition sample_target : Config :=
  {| host := Some "h"; port := "1234"; database := "dbname";
     username := Some "u"; password := Some "p" |}.

Definition sample_restore_argv : list string :=
  ["pg_restore"; "-h"; "h"; "-p"; "1234"; "-U"; "u"; "-d"; "dbname";
   "--clean"; "--if-exists"; "db.dump"].

Definition args_of (a : Action) (file url : pystr) : Args :=
  {| action := a; backup_file := file; target_url := url; target_host := None;
     target_port := "5432"; target_db := None; target_user := None;
     target_password := None |}.

(** ** More observations on a run *)

(** A connection was closed. *)
Definition is_close (e : event) : bool :=
  match e with EClose => true | _ => false end.

(** A connection was attempted. *)
Definition is_connect (e : event) : bool :=
  match e with EConnect _ => true | _ => false end.

(** An event that, if it starts a process, starts [pg_dump] or
    [pg_restore]. *)
Definition is_pg_tool (e : event) : bool :=
  match e with
  | ERun ("pg_dump" :: _) _ => true
  | ERun ("pg_restore" :: _) _ => true
  | ERun _ _ => false
  | _ => true
  end.

(** The computation [c] leaves the files as they are. *)
Definition Keeps {A} (c : M A) : Prop :=
  forall st r st', c st = (r, st') -> files st' = files st.

(** The actions that have no business with the external tools. *)
Definition tool_free (a : Action) : bool :=
  match a with
  | Info | Test | DeployRailway | DeployHeroku => true
  | Backup | Restore | Migrate => false
  end.

(** A descriptor with every field a [str]. *)
Definition complete (cfg : Config) : bool :=
  match host cfg, username cfg, password cfg with
  | Some _, Some _, Some _ => true
  | _, _, _ => false
  end.

(** A world that differs from [w] in the password of the environment
    only. *)
Definition same_but_password (w w' : World) : Prop :=
  forall name, name <> "DB_PASSWORD" -> getenv w' name = getenv w name.

(** A descriptor with another password. *)
Definition with_password (p : pystr) (cfg : Config) : Config :=
  {| host := host cfg; port := port cfg; database := database cfg;
     username := username cfg; password := p |}.

(** A URL without a password. *)
Definition no_password_url : string := "postgresql://u@h:1234/dbname".

Definition no_password_target : Config :=
  {| host := Some "h"; port := "1234"; database := "dbname";
     username := Some "u"; password := None |}.

(** A world whose [pg_dump] ends with status zero and writes nothing,
    and whose [pg_restore] cannot be executed. *)
Definition hollow_world : World :=
  {| getenv := fun _ => None;
     now := fun _ => sample_now;
     connect := fun _ _ => None;
     close := fun _ => None;
     execute := fun _ _ => None;
     fetchone := fun _ => Ok (Some [VNone]);
     run := fun st argv _ =>
       match argv with
       | "pg_dump" :: _ => (Ok {| returncode := 0; stderr := "" |}, files st)
       | _ => (Raise (Exn (OtherException "PermissionError") "Permission denied"), files st)
       end |}.

(** A world whose [pg_dump] succeeds and writes its archive, and whose
    [pg_restore] cannot be started: starting it raises [e]. *)
Definition dump_only_world (e : exn) : World :=
  {| getenv := fun _ => None;
     now := fun _ => sample_now;
     connect := fun _ _ => None;
     close := fun _ => None;
     execute := fun _ _ => None;
     fetchone := fun _ => Ok (Some [VInt 3]);
     run := fun st argv _ =>
       match argv with
       | "pg_dump" :: _ =>
           (Ok {| returncode := 0; stderr := "" |},
            <[default "" (last argv) := 2048%Z]> (files st))
       | _ => (Raise e, files st)
       end |}.

Definition not_found : exn := Exn FileNotFoundError "pg_restore".
Definition denied : exn := Exn (OtherException "PermissionError") "Permission denied".

(** The sample world with another password in the environment. *)
Definition secret_world : World :=
  {| getenv := fun name => if String.eqb name "DB_PASSWORD" then Some "s3cret" else None;
     now := fun _ => sample_now;
     connect := connect (sample_world [] 0 0);
     close := close (sample_world [] 0 0);
     execute := execute (sample_world [] 0 0);
     fetchone := fetchone (sample_world [] 0 0);
     run := run (sample_world [] 0 0) |}.

(** * Properties *)

(** ** Small facts about the monad and the steps *)

Lemma quiet_refl st : quiet st st.
Proof.
  split; [exists []; split; [unfold added; now rewrite app_nil_r | constructor] | reflexivity].
Qed.

Lemma quiet_trans st1 st2 st3 : quiet st1 st2 -> quiet st2 st3 -> quiet st1 st3.
Proof.
  intros [[l1 [H1 F1]] E1] [[l2 [H2 F2]] E2]. split.
  - exists (l1 ++ l2)%list. split.
    + unfold added in *. rewrite H2, H1. now rewrite app_assoc.
    + apply Forall_app; split; assumption.
  - congruence.
Qed.

Lemma quiet_snoc st e : is_run e = false -> quiet st (snoc st e).
Proof.
  intros He. split; [exists [e]; split; [reflexivity | now constructor] | reflexivity].
Qed.

Lemma last_event_snoc st e : last_event (snoc st e) = Some e.
Proof. unfold last_event, snoc; cbn. apply last_snoc. Qed.

Lemma all_str_head x l argv :
  all_str (Some x :: l) = Some argv -> exists r, argv = x :: r.
Proof.
  cbn [all_str]. destruct (all_str l) as [r|]; [| discriminate].
  intros [= <-]. now exists r.
Qed.

Lemma print_run m st : print m st = (Ok tt, snoc st (EPrint m)).
Proof. reflexivity. Qed.

(** ** A frame rule for traces *)

Lemma only_refl P st : only P st st.
Proof. exists []. split; [unfold added; now rewrite app_nil_r | constructor]. Qed.

Lemma only_trans P st1 st2 st3 : only P st1 st2 -> only P st2 st3 -> only P st1 st3.
Proof.
  intros [l1 [H1 F1]] [l2 [H2 F2]].
  exists (l1 ++ l2)%list. split.
  - unfold added in *. rewrite H2, H1. now rewrite app_assoc.
  - apply Forall_app; split; assumption.
Qed.

Lemma only_snoc (P : event -> Prop) st e : P e -> only P st (snoc st e).
Proof. intros He. exists [e]. split; [reflexivity | now constructor]. Qed.

Lemma only_ran (P : event -> Prop) st argv pw fs :
  P (ERun argv pw) -> only P st (ran st argv pw fs).
Proof. intros He. exists [ERun argv pw]. split; [reflexivity | now constructor]. Qed.

Lemma Only_ret {A} P (a : A) : Only P (ret a).
Proof. intros st r st' [= _ <-]. apply only_refl. Qed.

Lemma Only_raise {A} P e : Only P (@raise A e).
Proof. intros st r st' [= _ <-]. apply only_refl. Qed.

Lemma Only_lift {A} P (x : result A) : Only P (lift x).
Proof. intros st r st' [= _ <-]. apply only_refl. Qed.

Lemma Only_emit (P : event -> Prop) e : P e -> Only P (emit e).
Proof. intros He st r st' [= _ <-]. now apply only_snoc. Qed.

Lemma Only_print (P : event -> Prop) m : P (EPrint m) -> Only P (print m).
Proof. apply Only_emit. Qed.

(** Sequencing, with what is known of the value passed on. *)
Lemma Only_bind_with {A B} P (Q : A -> Prop) (c : M A) (k : A -> M B) :
  Only P c ->
  (forall st a st', c st = (Ok a, st') -> Q a) ->
  (forall a, Q a -> Only P (k a)) ->
  Only P (bind c k).
Proof.
  intros Hc HQ Hk st r st'. unfold bind.
  destruct (c st) as [[a | e] s1] eqn:E.
  - intros Hrun. eapply only_trans; [eapply Hc, E |].
    eapply Hk; [eapply HQ, E | exact Hrun].
  - intros [= _ <-]. eapply Hc, E.
Qed.

Lemma Only_bind {A B} P (c : M A) (k : A -> M B) :
  Only P c -> (forall a, Only P (k a)) -> Only P (bind c k).
Proof.
  intros Hc Hk. apply (Only_bind_with P (fun _ => True)); auto.
Qed.

Lemma Only_try_except {A} P (c : M A) catches h :
  Only P c -> (forall e, Only P (h e)) -> Only P (try_except c catches h).
Proof.
  intros Hc Hh st r st'. unfold try_except.
  destruct (c st) as [[a | e] s1] eqn:E.
  - intros [= _ <-]. eapply Hc, E.
  - destruct (catches e).
    + intros Hrun. eapply only_trans; [eapply Hc, E | eapply Hh, Hrun].
    + intros [= _ <-]. eapply Hc, E.
Qed.

Section StepFacts.

Variable w : World.

(** Every way the probe can go: the connection does not open, it opens
    and closing it raises, or it opens and closes. *)
Lemma test_connection_run cfg st :
  test_connection w cfg st =
    match connect w st cfg with
    | Some e => (Ok false, snoc (snoc (snoc st (EConnect cfg)) (EPrint (MConnectFailed cfg)))
                            (EPrint (MError e)))
    | None =>
        match close w (snoc st (EConnect cfg)) with
        | Some e =>
            (Ok false,
             snoc (snoc (snoc (snoc st (EConnect cfg)) EClose) (EPrint (MConnectFailed cfg)))
                  (EPrint (MError e)))
        | None =>
            (Ok true, snoc (snoc (snoc st (EConnect cfg)) EClose) (EPrint (MConnected cfg)))
        end
    end.
Proof.
  unfold test_connection, try_except, bind, psycopg2_connect, psycopg2_close.
  destruct (connect w st cfg); [reflexivity |].
  destruct (close w _); reflexivity.
Qed.

Lemma test_connection_quiet cfg st r st' :
  test_connection w cfg st = (r, st') -> quiet st st'.
Proof.
  rewrite test_connection_run.
  destruct (connect w st cfg); [| destruct (close w _)]; intros [= _ <-];
    repeat (eapply quiet_trans; [| apply quiet_snoc; reflexivity]); apply quiet_refl.
Qed.

Lemma all_str_pg_dump_cmd file :
  all_str (pg_dump_cmd w file) = Some (pg_dump_argv w file).
Proof. reflexivity. Qed.

Lemma backup_target_run bf st :
  backup_target w bf st = (Ok (chosen_file w bf st), st).
Proof.
  unfold backup_target, chosen_file, truthy.
  destruct bf as [f|]; [destruct (String.eqb f "") |]; reflexivity.
Qed.

(** Every way [backup_database] can go, by what [pg_dump] did. *)
Lemma backup_database_run bf st :
  backup_database w bf st =
    let file := chosen_file w bf st in
    let s1 := snoc st (EPrint MCreatingBackup) in
    let argv := pg_dump_argv w file in
    let pw := local_password w in
    match run w s1 argv pw with
    | (Ok c, fs) =>
        if (returncode c =? 0)%Z then
          let s2 := snoc (snoc (ran s1 argv pw fs) (EPrint (MBackupCreated file)))
                         (EGetsize file) in
          match fs !! file with
          | Some n => (Ok (Some file), snoc s2 (EPrint (MFileSize n)))
          | None => (Ok None, snoc s2 (EPrint MPgDumpNotFound))
          end
        else (Ok None, snoc (ran s1 argv pw fs) (EPrint (MBackupFailed (stderr c))))
    | (Raise e, fs) =>
        if is_FileNotFoundError e
        then (Ok None, snoc (ran s1 argv pw fs) (EPrint MPgDumpNotFound))
        else (Raise e, ran s1 argv pw fs)
    end.
Proof.
  unfold backup_database, bind at 1. rewrite backup_target_run.
  unfold bind at 1. rewrite print_run.
  unfold try_except, bind, subprocess_run.
  rewrite all_str_pg_dump_cmd. cbn [password local_config].
  fold (local_password w).
  destruct (run w _ _ _) as [[c | e] fs] eqn:Hrun; cbn.
  - destruct (returncode c =? 0)%Z; [| reflexivity].
    unfold getsize; cbn. destruct (fs !! _); reflexivity.
  - destruct (is_FileNotFoundError e); reflexivity.
Qed.

(** Every way [restore_database] can go once its command holds no
    [None], by what [pg_restore] did. *)
Lemma restore_database_run file cfg argv pw st :
  all_str (pg_restore_cmd file cfg) = Some argv ->
  password cfg = Some pw ->
  restore_database w file cfg st =
    let s1 := snoc st (EPrint (MRestoring file)) in
    match run w s1 argv pw with
    | (Ok c, fs) =>
        (Ok true,
         snoc (ran s1 argv pw fs)
              (EPrint (if (returncode c =? 0)%Z then MRestored
                       else MRestoreWarnings (stderr c))))
    | (Raise e, fs) =>
        if is_FileNotFoundError e
        then (Ok false, snoc (ran s1 argv pw fs) (EPrint MPgRestoreNotFound))
        else (Raise e, ran s1 argv pw fs)
    end.
Proof.
  intros Hargv Hpw.
  unfold restore_database, bind at 1. rewrite print_run.
  unfold try_except, bind, subprocess_run. rewrite Hargv, Hpw.
  destruct (run w _ _ _) as [[c | e] fs] eqn:Hrun; cbn.
  - destruct (returncode c =? 0)%Z; reflexivity.
  - destruct (is_FileNotFoundError e); reflexivity.
Qed.

(** With a [None] in its command, [restore_database] raises before any
    process starts. *)
Lemma restore_database_none file cfg st :
  all_str (pg_restore_cmd file cfg) = None \/ password cfg = None ->
  exists e, restore_database w file cfg st = (Raise e, snoc st (EPrint (MRestoring file)))
            /\ exn_cls e = TypeError.
Proof.
  intros H. eexists.
  unfold restore_database, bind at 1. rewrite print_run.
  unfold try_except, bind, subprocess_run.
  destruct H as [-> | ->]; [| destruct (all_str _)]; cbn; split; reflexivity.
Qed.

(** What a returned path tells: it is the chosen file, and the archive
    is on disk. *)
Lemma backup_database_some bf st file st' :
  backup_database w bf st = (Ok (Some file), st') ->
  file = chosen_file w bf st /\ exists n, files st' !! file = Some n.
Proof.
  rewrite backup_database_run. cbn zeta.
  destruct (run w _ _ _) as [[c | e] fs].
  - destruct (returncode c =? 0)%Z; [| discriminate].
    destruct (fs !! _) as [n|] eqn:Hn; [| discriminate].
    intros [= <- <-]. split; [reflexivity | now exists n].
  - destruct (is_FileNotFoundError e); discriminate.
Qed.

(** What a [True] from [restore_database] tells: [pg_restore] ran and
    ended, and the files are as that process left them. *)
Lemma restore_database_true file cfg st st' :
  restore_database w file cfg st = (Ok true, st') ->
  exists argv pw c fs,
    all_str (pg_restore_cmd file cfg) = Some argv /\
    password cfg = Some pw /\
    run w (snoc st (EPrint (MRestoring file))) argv pw = (Ok c, fs) /\
    files st' = fs.
Proof.
  destruct (all_str (pg_restore_cmd file cfg)) as [argv|] eqn:Hargv.
  2: { intros H. destruct (restore_database_none file cfg st (or_introl Hargv))
         as (e & He & _). congruence. }
  destruct (password cfg) as [pw|] eqn:Hpw.
  2: { intros H. destruct (restore_database_none file cfg st (or_intror Hpw))
         as (e & He & _). congruence. }
  rewrite (restore_database_run file cfg argv pw st Hargv Hpw). cbn zeta.
  destruct (run w _ argv pw) as [[c | e] fs] eqn:Hrun.
  - intros [= <-]. now exists argv, pw, c, fs.
  - destruct (is_FileNotFoundError e); discriminate.
Qed.

Lemma Only_psycopg2_connect (P : event -> Prop) cfg :
  P (EConnect cfg) -> Only P (psycopg2_connect w cfg).
Proof.
  intros HP st r st'. unfold psycopg2_connect.
  destruct (connect w st cfg); intros [= _ <-]; now apply only_snoc.
Qed.

Lemma Only_psycopg2_close (P : event -> Prop) :
  P EClose -> Only P (psycopg2_close w).
Proof.
  intros HP st r st'. unfold psycopg2_close.
  destruct (close w st); intros [= _ <-]; now apply only_snoc.
Qed.

Lemma Only_getsize (P : event -> Prop) file :
  P (EGetsize file) -> Only P (getsize file).
Proof.
  intros HP st r st'. unfold getsize.
  destruct (files st !! file); intros [= _ <-]; now apply only_snoc.
Qed.

Lemma Only_subprocess_run (P : event -> Prop) cmd pgpassword :
  (forall argv pw, all_str cmd = Some argv -> pgpassword = Some pw -> P (ERun argv pw)) ->
  Only P (subprocess_run w cmd pgpassword).
Proof.
  intros HP st r st'. unfold subprocess_run.
  destruct (all_str cmd) as [argv|]; [destruct pgpassword as [pw|] |].
  - destruct (run w st argv pw) as [r0 fs]. intros [= _ <-].
    apply (only_ran P st argv pw fs). now apply HP.
  - apply Only_raise.
  - apply Only_raise.
Qed.

Lemma dump_to_synthesized_other e :
  is_pg_dump e = false -> dump_to_synthesized w e.
Proof. intros H H'. congruence. Qed.

End StepFacts.

(** One step of a proof that a computation only adds events that are not
    [pg_dump] or write to a synthesized name. *)
Ltac only_step :=
  lazymatch goal with
  | |- Only _ (ret _) => apply Only_ret
  | |- Only _ (lift _) => apply Only_lift
  | |- Only _ (print _) => apply Only_print, dump_to_synthesized_other; reflexivity
  | |- Only _ (emit _) => apply Only_emit, dump_to_synthesized_other; reflexivity
  | |- Only _ (psycopg2_connect _ _) =>
      apply Only_psycopg2_connect, dump_to_synthesized_other; reflexivity
  | |- Only _ (psycopg2_close _) =>
      apply Only_psycopg2_close, dump_to_synthesized_other; reflexivity
  | |- Only _ (getsize _) => apply Only_getsize, dump_to_synthesized_other; reflexivity
  | |- Only _ (bind _ _) => apply Only_bind; [| intros ?]
  | |- Only _ (try_except _ _ _) => apply Only_try_except; [| intros ?]
  | |- Only _ (if ?b then _ else _) => destruct b
  | |- Only _ (match ?x with _ => _ end) => destruct x
  end.

(** ** Zero padding *)

Lemma pad2_table :
  forallb (fun n => String.eqb (Str.pad 2 n) (two_digits n)) (seqZ 0 100) = true.
Proof. vm_compute. reflexivity. Qed.

Lemma pad4_table :
  forallb (fun n => String.eqb (Str.pad 4 n) (four_digits n)) (seqZ 1000 9000) = true.
Proof. vm_compute. reflexivity. Qed.

Lemma pad2_two_digits n : (0 <= n <= 99)%Z -> Str.pad 2 n = two_digits n.
Proof.
  intros Hn. pose proof pad2_table as T.
  rewrite forallb_forall in T.
  apply String.eqb_eq, T, list_elem_of_In, elem_of_seqZ. lia.
Qed.

Lemma pad4_four_digits n : (1000 <= n <= 9999)%Z -> Str.pad 4 n = four_digits n.
Proof.
  intros Hn. pose proof pad4_table as T.
  rewrite forallb_forall in T.
  apply String.eqb_eq, T, list_elem_of_In, elem_of_seqZ. lia.
Qed.

Lemma strftime_spec t : valid_datetime t -> strftime t = spec_timestamp t.
Proof.
  intros (Hy & Hm & Hd & Hh & Hmi & Hs & _).
  unfold strftime, spec_timestamp.
  rewrite pad4_four_digits by lia.
  rewrite !pad2_two_digits by lia. reflexivity.
Qed.

Lemma strftime_same_second t1 t2 : same_second t1 t2 -> strftime t1 = strftime t2.
Proof.
  intros (Hy & Hm & Hd & Hh & Hmi & Hs). unfold strftime. congruence.
Qed.

(** ** The config resolver *)

Section ConfigResolver.

Variable bracketed_host_ok : string -> bool.
Variable netloc_nfkc_ok : string -> bool.

Lemma urlsplit_raises url e :
  Url.urlsplit bracketed_host_ok netloc_nfkc_ok url = Raise e -> exn_cls e = ValueError.
Proof.
  unfold Url.urlsplit.
  destruct (Url.split_scheme _) as [sch u].
  destruct (Str.starts2 _ _ u).
  - destruct (Url.splitnetloc u) as [nl rest].
    unfold Url.check_brackets.
    destruct (_ || _).
    + intros [= <-]. reflexivity.
    + destruct (_ && _).
      * destruct (Str.partition "[" nl) as [[? ?] after].
        destruct (Str.partition "]" after) as [[bracketed ?] ?].
        destruct (bracketed_host_ok bracketed).
        -- destruct (Url.cut "#" rest) as [u1 frag].
           destruct (Url.cut "?" u1) as [u2 qry].
           unfold Url.checknetloc.
           destruct (_ || _); [discriminate |].
           destruct (netloc_nfkc_ok nl); [discriminate |].
           intros [= <-]. reflexivity.
        -- intros [= <-]. reflexivity.
      * destruct (Url.cut "#" rest) as [u1 frag].
        destruct (Url.cut "?" u1) as [u2 qry].
        unfold Url.checknetloc.
        destruct (_ || _); [discriminate |].
        destruct (netloc_nfkc_ok nl); [discriminate |].
        intros [= <-]. reflexivity.
  - destruct (Url.cut "#" u) as [u1 frag].
    destruct (Url.cut "?" u1) as [u2 qry].
    cbn. discriminate.
Qed.

Lemma urlparse_raises url e :
  Url.urlparse bracketed_host_ok netloc_nfkc_ok url = Raise e -> exn_cls e = ValueError.
Proof.
  unfold Url.urlparse.
  destruct (Url.urlsplit _ _ url) as [r | e'] eqn:E.
  - destruct (_ && _); [destruct (Url.splitparams _) |]; discriminate.
  - intros [= <-]. eapply urlsplit_raises, E.
Qed.

Lemma port_raises r e : Url.port r = Raise e -> exn_cls e = ValueError.
Proof.
  unfold Url.port. destruct (snd _) as [p|]; [| discriminate].
  destruct (Str.is_digits p); [destruct (_ <? _)%Z; [| destruct (_ && _); [discriminate |]] |];
    intros [= <-]; reflexivity.
Qed.

(** C3: the URL of the specification gives host [h], port [1234],
    database [dbname], user [u] and password [p]; a URL whose network
    location carries no port gives port [5432]; and the database is
    the path without its leading separators, so a path that is one
    separator and a bare name gives that name. *)
Theorem parse_database_url_components :
  parse_database_url bracketed_host_ok netloc_nfkc_ok "postgresql://u:p@h:1234/dbname"
  = Ok {| host := Some "h"; port := "1234"; database := "dbname";
          username := Some "u"; password := Some "p" |}
  /\ (forall url r,
        Url.urlparse bracketed_host_ok netloc_nfkc_ok url = Ok r ->
        snd (Url.hostinfo r) = None ->
        exists cfg,
          parse_database_url bracketed_host_ok netloc_nfkc_ok url = Ok cfg /\
          port cfg = "5432")
  /\ (forall url r cfg,
        Url.urlparse bracketed_host_ok netloc_nfkc_ok url = Ok r ->
        parse_database_url bracketed_host_ok netloc_nfkc_ok url = Ok cfg ->
        database cfg = Str.lstrip (Ascii.eqb "/") (Url.path r) /\
        forall name, Url.path r = String "/" name -> bare name -> database cfg = name).
Proof.
  split; [reflexivity | split].
  - intros url r Hr Hp. unfold parse_database_url. rewrite Hr.
    unfold Url.port. rewrite Hp. eexists. split; reflexivity.
  - intros url r cfg Hr. unfold parse_database_url. rewrite Hr.
    destruct (Url.port r) as [p | e]; [| discriminate].
    intros [= <-]. cbn [database]. split; [reflexivity |].
    intros name -> Hbare. cbn. exact Hbare.
Qed.









End ConfigResolver.

(** ** The invokers *)

Section Invokers.

Variable w : World.

(** C2: when [pg_restore] can be started and ends, with status zero or
    with any other status, [restore_database] answers [True] (printing
    the success line for zero and the warnings line with the error
    stream otherwise); it answers [False] exactly when starting the
    process raised [FileNotFoundError], the binary being absent. *)
Theorem restore_is_lenient (file : string) (cfg : Config)
    (argv : list string) (pw : string) (st : State) :
  all_str (pg_restore_cmd file cfg) = Some argv ->
  password cfg = Some pw ->
  (forall c fs,
      run w (snoc st (EPrint (MRestoring file))) argv pw = (Ok c, fs) ->
      restore_database w file cfg st
      = (Ok true,
         snoc (ran (snoc st (EPrint (MRestoring file))) argv pw fs)
              (EPrint (if (returncode c =? 0)%Z then MRestored
                       else MRestoreWarnings (stderr c)))))
  /\ (forall st',
        restore_database w file cfg st = (Ok false, st') <->
        exists e fs,
          run w (snoc st (EPrint (MRestoring file))) argv pw = (Raise e, fs) /\
          is_FileNotFoundError e = true /\
          st' = snoc (ran (snoc st (EPrint (MRestoring file))) argv pw fs)
                     (EPrint MPgRestoreNotFound)).
Proof.
  intros Hargv Hpw.
  rewrite (restore_database_run w file cfg argv pw st Hargv Hpw). cbn zeta.
  split.
  - intros c fs ->. reflexivity.
  - intros st'.
    destruct (run w _ argv pw) as [[c | e] fs] eqn:Hrun.
    + split; [discriminate | intros (e & fs' & [=] & _)].
    + destruct (is_FileNotFoundError e) eqn:He; split.
      * intros [= <-]. now exists e, fs.
      * intros (e' & fs' & [= <- <-] & _ & ->). reflexivity.
      * discriminate.
      * intros (e' & fs' & [= <- <-] & He' & _). congruence.
Qed.

(** The outcomes of [backup_database] by how [pg_dump] ended.  Status
    zero, its archive on disk:
    [backup_database] returns the file path.  Another status: it prints
    the failure line carrying the error stream and returns [None].
    [FileNotFoundError] on starting it: it prints the line that the
    client tools are missing, a line other than the failure line, and
    returns [None]. *)
Theorem backup_outcomes (bf : pystr) (st : State) :
  (forall c fs n,
      run w (snoc st (EPrint MCreatingBackup))
          (pg_dump_argv w (chosen_file w bf st)) (local_password w) = (Ok c, fs) ->
      returncode c = 0%Z ->
      fs !! chosen_file w bf st = Some n ->
      exists st',
        backup_database w bf st = (Ok (Some (chosen_file w bf st)), st') /\
        files st' = fs /\
        last_event st' = Some (EPrint (MFileSize n)))
  /\ (forall c fs,
        run w (snoc st (EPrint MCreatingBackup))
            (pg_dump_argv w (chosen_file w bf st)) (local_password w) = (Ok c, fs) ->
        returncode c <> 0%Z ->
        exists st',
          backup_database w bf st = (Ok None, st') /\
          last_event st' = Some (EPrint (MBackupFailed (stderr c))))
  /\ (forall e fs,
        run w (snoc st (EPrint MCreatingBackup))
            (pg_dump_argv w (chosen_file w bf st)) (local_password w) = (Raise e, fs) ->
        is_FileNotFoundError e = true ->
        exists st',
          backup_database w bf st = (Ok None, st') /\
          last_event st' = Some (EPrint MPgDumpNotFound)).
Proof.
  rewrite backup_database_run. cbn zeta.
  split; [| split].
  - intros c fs n -> -> ->. eexists. split; [reflexivity |].
    split; [reflexivity | apply last_event_snoc].
  - intros c fs -> Hrc.
    destruct (Z.eqb_spec (returncode c) 0); [contradiction |].
    eexists. split; [reflexivity | apply last_event_snoc].
  - intros e fs -> ->.
    eexists. split; [reflexivity | apply last_event_snoc].
Qed.

(** The archive gone although [pg_dump] ended with status zero: the
    size query raises [FileNotFoundError] inside the [try], and the
    handler meant for the missing binary answers. *)
Lemma backup_exit_zero_archive_missing (bf : pystr) (st : State) c fs :
  run w (snoc st (EPrint MCreatingBackup))
      (pg_dump_argv w (chosen_file w bf st)) (local_password w) = (Ok c, fs) ->
  returncode c = 0%Z ->
  fs !! chosen_file w bf st = None ->
  exists st',
    backup_database w bf st = (Ok None, st') /\
    last_event st' = Some (EPrint MPgDumpNotFound).
Proof.
  intros Hrun Hrc Hfs. rewrite backup_database_run. cbn zeta.
  rewrite Hrun, Hrc, Hfs. eexists. split; [reflexivity | apply last_event_snoc].
Qed.

(** C6: given no usable file path ([None] or the empty string) and a
    clock reading [t], [backup_database] settles on
    [backup_<dbname>_<YYYYMMDD_HHMMSS>.dump], digit for digit, hands that
    name to [pg_dump], and settles on the same name whenever it is
    called again within the same second. *)
Theorem backup_name_is_synthesized (bf : pystr) (st : State) :
  truthy bf = false ->
  valid_datetime (now w st) ->
  backup_target w bf st
  = (Ok (spec_backup_name (database (local_config w)) (now w st)), st)
  /\ (exists r st',
        backup_database w bf st = (r, st') /\
        In (ERun (pg_dump_argv w (spec_backup_name (database (local_config w)) (now w st)))
                 (local_password w))
           (trace st'))
  /\ (forall w' bf' st',
        truthy bf' = false ->
        database (local_config w') = database (local_config w) ->
        same_second (now w st) (now w' st') ->
        backup_target w' bf' st'
        = (Ok (spec_backup_name (database (local_config w)) (now w st)), st')).
Proof.
  intros Hbf Ht.
  assert (Hname : forall w' b s, truthy b = false ->
            database (local_config w') = database (local_config w) ->
            same_second (now w st) (now w' s) ->
            chosen_file w' b s = spec_backup_name (database (local_config w)) (now w st)).
  { intros w' b s Hb Hdb Hs. unfold chosen_file. rewrite Hb.
    unfold synthesized_name, spec_backup_name.
    rewrite Hdb, <- (strftime_same_second _ _ Hs), (strftime_spec _ Ht). reflexivity. }
  assert (Hself : same_second (now w st) (now w st)) by (repeat split).
  split; [| split].
  - rewrite backup_target_run, (Hname w bf st Hbf eq_refl Hself). reflexivity.
  - rewrite backup_database_run, (Hname w bf st Hbf eq_refl Hself). cbn zeta.
    set (argv := pg_dump_argv w _).
    destruct (run w _ argv _) as [[c | e] fs].
    + destruct (returncode c =? 0)%Z; [destruct (fs !! _) |];
        eexists _, _; (split; [reflexivity |]); cbn;
        rewrite !in_app_iff; cbn; tauto.
    + destruct (is_FileNotFoundError e);
        eexists _, _; (split; [reflexivity |]); cbn;
        rewrite !in_app_iff; cbn; tauto.
  - intros w' bf' st' Hb Hdb Hs.
    rewrite backup_target_run, (Hname w' bf' st' Hb Hdb Hs). reflexivity.
Qed.

End Invokers.

(** ** The info reporter *)

Section InfoReporter.

Variable w : World.

Lemma get_database_info_no_connection cfg st e :
  connect w st cfg = Some e ->
  get_database_info w cfg st
  = (Ok None, snoc (snoc st (EConnect cfg)) (EPrint (MInfoError e))).
Proof.
  intros H. unfold get_database_info, try_except, database_info_body, bind at 1.
  unfold psycopg2_connect. rewrite H. reflexivity.
Qed.

(** Every way the report can go once the connection is open. *)
Lemma get_database_info_run cfg st :
  connect w st cfg = None ->
  get_database_info w cfg st =
    match first_column w QDatabaseSize (with_cursor cfg st) with
    | (Raise e, s1) => (Ok None, snoc s1 (EPrint (MInfoError e)))
    | (Ok size, s1) =>
        match first_column w QTableCount s1 with
        | (Raise e, s2) => (Ok None, snoc s2 (EPrint (MInfoError e)))
        | (Ok tables, s2) =>
            match first_column w QTotalRows s2 with
            | (Raise e, s3) => (Ok None, snoc s3 (EPrint (MInfoError e)))
            | (Ok r0, s3) =>
                match close w s3 with
                | Some e => (Ok None, snoc (snoc s3 EClose) (EPrint (MInfoError e)))
                | None =>
                    (Ok (Some {| info_size := size; info_tables := tables;
                                 info_rows := or_zero r0 |}),
                     snoc s3 EClose)
                end
            end
        end
    end.
Proof.
  intros H. unfold get_database_info, try_except, database_info_body, bind at 1.
  unfold psycopg2_connect. rewrite H.
  unfold bind at 1. unfold emit at 1. fold (snoc (snoc st (EConnect cfg)) ECursor).
  fold (with_cursor cfg st).
  generalize (with_cursor cfg st) as s0. intros s0.
  unfold first_column, bind, lift.
  destruct (fetch w QDatabaseSize s0) as [[row1 | e1] s1]; [| reflexivity].
  destruct (subscript0 row1) as [size | e1]; [| reflexivity].
  destruct (fetch w QTableCount s1) as [[row2 | e2] s2]; [| reflexivity].
  destruct (subscript0 row2) as [tables | e2]; [| reflexivity].
  destruct (fetch w QTotalRows s2) as [[row3 | e3] s3]; [| reflexivity].
  destruct (subscript0 row3) as [r0 | e3]; [| reflexivity].
  unfold psycopg2_close. destruct (close w s3); reflexivity.
Qed.

(** C9: [get_database_info] never raises, and it goes one of two ways.
    Either it prints the one error line and returns [None]; or the
    connection opened, each of the three queries gave a first column,
    and the result holds all three.  A failure of the size query, of
    the table count after it, or of the row count after both, each
    lead to the first way. *)
Theorem info_is_all_or_nothing (cfg : Config) (st : State) :
  ((exists st' e,
       get_database_info w cfg st = (Ok None, st') /\
       last_event st' = Some (EPrint (MInfoError e)))
   \/ (exists size tables r0 s1 s2 s3,
         connect w st cfg = None /\
         first_column w QDatabaseSize (with_cursor cfg st) = (Ok size, s1) /\
         first_column w QTableCount s1 = (Ok tables, s2) /\
         first_column w QTotalRows s2 = (Ok r0, s3) /\
         get_database_info w cfg st
         = (Ok (Some {| info_size := size; info_tables := tables;
                        info_rows := or_zero r0 |}),
            snoc s3 EClose)))
  /\ (connect w st cfg = None ->
      (forall e s1,
          first_column w QDatabaseSize (with_cursor cfg st) = (Raise e, s1) ->
          get_database_info w cfg st = (Ok None, snoc s1 (EPrint (MInfoError e))))
      /\ (forall size s1 e s2,
            first_column w QDatabaseSize (with_cursor cfg st) = (Ok size, s1) ->
            first_column w QTableCount s1 = (Raise e, s2) ->
            get_database_info w cfg st = (Ok None, snoc s2 (EPrint (MInfoError e))))
      /\ (forall size s1 tables s2 e s3,
            first_column w QDatabaseSize (with_cursor cfg st) = (Ok size, s1) ->
            first_column w QTableCount s1 = (Ok tables, s2) ->
            first_column w QTotalRows s2 = (Raise e, s3) ->
            get_database_info w cfg st = (Ok None, snoc s3 (EPrint (MInfoError e))))).
Proof.
  split.
  - destruct (connect w st cfg) as [e|] eqn:Hc.
    { left. rewrite (get_database_info_no_connection _ _ _ Hc).
      eexists _, e. split; [reflexivity | apply last_event_snoc]. }
    rewrite (get_database_info_run _ _ Hc).
    destruct (first_column w QDatabaseSize _) as [[size | e] s1] eqn:E1.
    2: { left. eexists _, e. split; [reflexivity | apply last_event_snoc]. }
    destruct (first_column w QTableCount s1) as [[tables | e] s2] eqn:E2.
    2: { left. eexists _, e. split; [reflexivity | apply last_event_snoc]. }
    destruct (first_column w QTotalRows s2) as [[r0 | e] s3] eqn:E3.
    2: { left. eexists _, e. split; [reflexivity | apply last_event_snoc]. }
    destruct (close w s3) as [e|].
    { left. eexists _, e. split; [reflexivity | apply last_event_snoc]. }
    right. exists size, tables, r0, s1, s2, s3. auto.
  - intros Hc. rewrite (get_database_info_run _ _ Hc).
    split; [| split].
    + intros e s1 ->. reflexivity.
    + intros size s1 e s2 -> ->. reflexivity.
    + intros size s1 tables s2 e s3 -> -> ->. reflexivity.
Qed.

End InfoReporter.

(** ** The command line guards *)

Section Guards.

Variable bracketed_host_ok : string -> bool.
Variable netloc_nfkc_ok : string -> bool.
Variable w : World.

(** C8: the [restore] action without a usable [--backup-file] or
    without a usable [--target-url] prints the error line and returns:
    that line is all the run adds to the trace, so no URL is parsed, no
    connection is opened and [pg_restore] is not started, and the files
    are as before. *)
Theorem restore_requires_both_flags (args : Args) (st : State) :
  action args = Restore ->
  truthy (backup_file args) = false \/ truthy (target_url args) = false ->
  main bracketed_host_ok netloc_nfkc_ok w args st
  = (Ok tt, snoc st (EPrint MRestoreArgsRequired)).
Proof.
  intros Ha H. unfold main. rewrite Ha.
  destruct (backup_file args) as [f|], (target_url args) as [u|]; try reflexivity.
  unfold truthy in H.
  destruct (String.eqb f ""), (String.eqb u ""); try reflexivity.
  destruct H; discriminate.
Qed.

End Guards.

(** The scenario of the specification: only [--backup-file] is given. *)
Lemma restore_requires_both_flags_witness :
  main ok_check ok_check bare_world (args_of Restore (Some "db.dump") None) st0
  = (Ok tt, snoc st0 (EPrint MRestoreArgsRequired)).
Proof.
  apply restore_requires_both_flags; [reflexivity | right; reflexivity].
Defined.

(** ** The migration *)

Section Migration.

Variable bracketed_host_ok : string -> bool.
Variable netloc_nfkc_ok : string -> bool.
Variable w : World.

Lemma main_migrate args url st :
  action args = Migrate -> target_url args = Some url -> url <> "" ->
  main bracketed_host_ok netloc_nfkc_ok w args st
  = migrate bracketed_host_ok netloc_nfkc_ok w url st.
Proof.
  intros Ha Hu Hne. unfold main. rewrite Ha, Hu.
  destruct (String.eqb_spec url ""); [contradiction | reflexivity].
Qed.

Lemma migrate_source_down url st st1 :
  test_connection w (local_config w) (at_source_probe st) = (Ok false, st1) ->
  migrate bracketed_host_ok netloc_nfkc_ok w url st
  = (Ok tt, snoc st1 (EPrint MCannotConnectLocal)).
Proof.
  intros H. unfold migrate, bind. rewrite !print_run.
  fold (at_source_probe st). rewrite H. reflexivity.
Qed.

Lemma migrate_target_down url st st1 cfg st2 :
  test_connection w (local_config w) (at_source_probe st) = (Ok true, st1) ->
  parse_database_url bracketed_host_ok netloc_nfkc_ok url = Ok cfg ->
  test_connection w cfg st1 = (Ok false, st2) ->
  migrate bracketed_host_ok netloc_nfkc_ok w url st
  = (Ok tt, snoc st2 (EPrint MCannotConnectTarget)).
Proof.
  intros H1 Hp H2. unfold migrate, bind. rewrite !print_run.
  fold (at_source_probe st). rewrite H1. cbn.
  unfold parse_url, lift. rewrite Hp, H2. reflexivity.
Qed.

Lemma at_source_probe_quiet st : quiet st (at_source_probe st).
Proof.
  unfold at_source_probe.
  eapply quiet_trans; apply quiet_snoc; reflexivity.
Qed.

(** C1: a migration whose source probe answers failure, or whose source
    probe succeeds and whose target probe answers failure, ends there:
    its last act is the line saying which database it cannot reach, and
    from start to end it started no external process (so [pg_dump] never
    ran) and the files on disk are unchanged (so no archive was made). *)
Theorem migrate_aborts_before_backup (args : Args) (url : string) (st : State) :
  action args = Migrate -> target_url args = Some url -> url <> "" ->
  (exists st1,
      test_connection w (local_config w) (at_source_probe st) = (Ok false, st1))
  \/ (exists st1 cfg st2,
      test_connection w (local_config w) (at_source_probe st) = (Ok true, st1) /\
      parse_database_url bracketed_host_ok netloc_nfkc_ok url = Ok cfg /\
      test_connection w cfg st1 = (Ok false, st2)) ->
  exists st_probe reason,
    main bracketed_host_ok netloc_nfkc_ok w args st
    = (Ok tt, snoc st_probe (EPrint reason)) /\
    last_event (snoc st_probe (EPrint reason)) = Some (EPrint reason) /\
    quiet st (snoc st_probe (EPrint reason)) /\
    ((reason = MCannotConnectLocal /\
      test_connection w (local_config w) (at_source_probe st) = (Ok false, st_probe))
     \/ (reason = MCannotConnectTarget /\
         exists st1 cfg,
           test_connection w (local_config w) (at_source_probe st) = (Ok true, st1) /\
           test_connection w cfg st1 = (Ok false, st_probe))).
Proof.
  intros Ha Hu Hne H. rewrite (main_migrate _ _ _ Ha Hu Hne).
  destruct H as [[st1 H1] | [st1 [cfg [st2 [H1 [Hp H2]]]]]].
  - exists st1, MCannotConnectLocal.
    rewrite (migrate_source_down _ _ _ H1), last_event_snoc.
    split; [reflexivity |]. split; [reflexivity |]. split; [| now left].
    eapply quiet_trans; [apply at_source_probe_quiet |].
    eapply quiet_trans; [eapply test_connection_quiet, H1 |].
    apply quiet_snoc; reflexivity.
  - exists st2, MCannotConnectTarget.
    rewrite (migrate_target_down _ _ _ _ _ H1 Hp H2), last_event_snoc.
    split; [reflexivity |]. split; [reflexivity |].
    split; [| right; split; [reflexivity | now exists st1, cfg]].
    eapply quiet_trans; [apply at_source_probe_quiet |].
    eapply quiet_trans; [eapply test_connection_quiet, H1 |].
    eapply quiet_trans; [eapply test_connection_quiet, H2 |].
    apply quiet_snoc; reflexivity.
Qed.

Lemma synthesized_name_not_empty t : String.eqb (synthesized_name w t) "" = false.
Proof. reflexivity. Qed.

Lemma migrate_through url st st1 cfg st2 file st3 :
  test_connection w (local_config w) (at_source_probe st) = (Ok true, st1) ->
  parse_database_url bracketed_host_ok netloc_nfkc_ok url = Ok cfg ->
  test_connection w cfg st1 = (Ok true, st2) ->
  backup_database w None (snoc st2 (EPrint MStepBackup)) = (Ok (Some file), st3) ->
  migrate bracketed_host_ok netloc_nfkc_ok w url st
  = match restore_database w file cfg (snoc st3 (EPrint MStepRestore)) with
    | (Ok true, st4) =>
        (Ok tt, snoc (snoc st4 (EPrint MMigrationCompleted)) (EPrint (MCanDeleteBackup file)))
    | (Ok false, st4) => (Ok tt, snoc st4 (EPrint MMigrationFailedRestore))
    | (Raise e, st4) => (Raise e, st4)
    end.
Proof.
  intros H1 Hp H2 Hb.
  destruct (backup_database_some w None _ file st3 Hb) as [Hfile _].
  unfold migrate, bind. rewrite !print_run.
  fold (at_source_probe st). rewrite H1. cbn [negb].
  unfold parse_url, lift. rewrite Hp, H2. cbn [negb].
  assert (Hne : String.eqb file "" = false) by (rewrite Hfile; reflexivity).
  rewrite print_run, Hb, Hne, print_run.
  destruct (restore_database w file cfg _) as [[[|] | e] st4]; reflexivity.
Qed.

(** C7: both probes answer success, [backup_database] returns a path
    and [restore_database] answers [True]: the migration ends normally,
    its last two acts being the line that it completed and the line that
    tells the operator the backup file may now be deleted, naming the
    path.  The archive was on disk when the backup step ended; from then
    on the files changed only by what the [pg_restore] process itself
    did, so an archive that process leaves in place is on disk at the
    end. *)
Theorem migrate_done (args : Args) (url : string) (st st1 st2 st3 st4 : State)
    (cfg : Config) (file : string) :
  action args = Migrate -> target_url args = Some url -> url <> "" ->
  test_connection w (local_config w) (at_source_probe st) = (Ok true, st1) ->
  parse_database_url bracketed_host_ok netloc_nfkc_ok url = Ok cfg ->
  test_connection w cfg st1 = (Ok true, st2) ->
  backup_database w None (snoc st2 (EPrint MStepBackup)) = (Ok (Some file), st3) ->
  restore_database w file cfg (snoc st3 (EPrint MStepRestore)) = (Ok true, st4) ->
  exists st',
    main bracketed_host_ok netloc_nfkc_ok w args st = (Ok tt, st') /\
    trace st' = (trace st4 ++ [EPrint MMigrationCompleted; EPrint (MCanDeleteBackup file)])%list /\
    (exists n, files st3 !! file = Some n) /\
    (exists argv pw c,
        run w (snoc (snoc st3 (EPrint MStepRestore)) (EPrint (MRestoring file))) argv pw
        = (Ok c, files st')) /\
    files st' = files st4.
Proof.
  intros Ha Hu Hne H1 Hp H2 Hb Hr.
  rewrite (main_migrate _ _ _ Ha Hu Hne).
  rewrite (migrate_through _ _ _ _ _ _ _ H1 Hp H2 Hb), Hr.
  destruct (backup_database_some w None _ file st3 Hb) as [_ Hdisk].
  destruct (restore_database_true w file cfg _ st4 Hr)
    as (argv & pw & c & fs & _ & _ & Hrun & Hfs).
  eexists. split; [reflexivity |].
  split; [cbn; now rewrite <- app_assoc |].
  split; [exact Hdisk |].
  split; [| reflexivity].
  exists argv, pw, c. cbn [files snoc]. rewrite Hfs. exact Hrun.
Qed.

Lemma restore_cmd_not_dump file cfg argv pw :
  all_str (pg_restore_cmd file cfg) = Some argv ->
  dump_to_synthesized w (ERun argv pw).
Proof.
  intros H. apply dump_to_synthesized_other.
  unfold pg_restore_cmd in H.
  apply all_str_head in H as [r ->]. reflexivity.
Qed.

Lemma test_connection_dumps cfg : Only (dump_to_synthesized w) (test_connection w cfg).
Proof. unfold test_connection. repeat only_step. Qed.

Lemma restore_database_dumps file cfg :
  Only (dump_to_synthesized w) (restore_database w file cfg).
Proof.
  unfold restore_database. repeat only_step.
  apply Only_subprocess_run. intros argv pw Hargv _.
  eapply restore_cmd_not_dump, Hargv.
Qed.

Lemma backup_database_dumps : Only (dump_to_synthesized w) (backup_database w None).
Proof.
  unfold backup_database.
  apply (Only_bind_with _ (fun f => exists s, f = synthesized_name w (now w s))).
  - intros st r st' [= _ <-]. apply only_refl.
  - intros st a st' [= <- _]. now exists st.
  - intros f [s ->]. repeat only_step.
    apply Only_subprocess_run. intros argv pw.
    rewrite all_str_pg_dump_cmd. intros [= <-] [= <-] _.
    now exists s.
Qed.

Lemma migrate_dumps url :
  Only (dump_to_synthesized w) (migrate bracketed_host_ok netloc_nfkc_ok w url).
Proof.
  unfold migrate, parse_url.
  repeat first [ apply test_connection_dumps
               | apply backup_database_dumps
               | apply restore_database_dumps
               | only_step ].
Qed.

Lemma backup_database_trace bf s r s' :
  backup_database w bf s = (r, s') ->
  exists rest,
    trace s' = (trace s ++ EPrint MCreatingBackup ::
                  ERun (pg_dump_argv w (chosen_file w bf s)) (local_password w) :: rest)%list.
Proof.
  rewrite backup_database_run. cbn zeta.
  destruct (run w _ _ _) as [[c | e] fs].
  - destruct (returncode c =? 0)%Z; [destruct (fs !! _) |]; intros [= _ <-]; cbn;
      rewrite <- !app_assoc; cbn; eexists; reflexivity.
  - destruct (is_FileNotFoundError e); intros [= _ <-]; cbn;
      rewrite <- !app_assoc; cbn; eexists; reflexivity.
Qed.

Lemma extends_after_restore file cfg s r s' :
  restore_database w file cfg s = (r, s') ->
  exists l, trace s' = (trace s ++ l)%list.
Proof.
  intros H. destruct (restore_database_dumps file cfg s r s' H) as [l [Hl _]].
  now exists l.
Qed.

(** Once both probes have passed, the backup step is entered and
    [pg_dump] started on the name synthesized from the clock of that
    step. *)
Lemma migrate_backs_up_to_synthesized url st st1 cfg st2 :
  test_connection w (local_config w) (at_source_probe st) = (Ok true, st1) ->
  parse_database_url bracketed_host_ok netloc_nfkc_ok url = Ok cfg ->
  test_connection w cfg st1 = (Ok true, st2) ->
  exists r st' rest,
    migrate bracketed_host_ok netloc_nfkc_ok w url st = (r, st') /\
    trace st'
    = (trace st2 ++ EPrint MStepBackup :: EPrint MCreatingBackup ::
         ERun (pg_dump_argv w (synthesized_name w (now w (snoc st2 (EPrint MStepBackup)))))
              (local_password w) :: rest)%list.
Proof.
  intros H1 Hp H2.
  destruct (backup_database w None (snoc st2 (EPrint MStepBackup))) as [rb st3] eqn:Hb.
  destruct (backup_database_trace _ _ _ _ Hb) as [rest Hrest].
  change (chosen_file w None (snoc st2 (EPrint MStepBackup)))
    with (synthesized_name w (now w (snoc st2 (EPrint MStepBackup)))) in Hrest.
  cbn [trace snoc] in Hrest. rewrite <- app_assoc in Hrest. cbn [app] in Hrest.
  destruct rb as [[file |] | e].
  - rewrite (migrate_through _ _ _ _ _ _ _ H1 Hp H2 Hb).
    destruct (restore_database w file cfg _) as [rr st4] eqn:Hr.
    destruct (extends_after_restore _ _ _ _ _ Hr) as [l Hl].
    cbn [trace snoc] in Hl. rewrite Hrest, <- !app_assoc in Hl. cbn [app] in Hl.
    destruct rr as [[|] | e]; eexists _, _, _; (split; [reflexivity |]); cbn [trace snoc];
      rewrite Hl, <- ?app_assoc; cbn [app]; reflexivity.
  - eexists _, _, _. split.
    + unfold migrate, bind. rewrite !print_run.
      fold (at_source_probe st). rewrite H1. cbn [negb].
      unfold parse_url, lift. rewrite Hp, H2. cbn [negb].
      rewrite print_run, Hb. reflexivity.
    + cbn [trace snoc]. rewrite Hrest, <- ?app_assoc. cbn [app]. reflexivity.
  - eexists _, _, _. split.
    + unfold migrate, bind. rewrite !print_run.
      fold (at_source_probe st). rewrite H1. cbn [negb].
      unfold parse_url, lift. rewrite Hp, H2. cbn [negb].
      rewrite print_run, Hb. reflexivity.
    + exact Hrest.
Qed.

(** C10: in a migration the value of [--backup-file] changes nothing:
    the run is the same whatever the flag holds.  [backup_database] is
    called without a path: once both probes have passed, whatever the
    flag, the run goes on with the backup step and starts [pg_dump] on
    the name synthesized from the database name and the clock of that
    step; and no run of a migration starts [pg_dump] on another
    name. *)
Theorem migrate_ignores_backup_file_flag (args : Args) (b : pystr) (st : State) :
  action args = Migrate ->
  main bracketed_host_ok netloc_nfkc_ok w (with_backup_file b args) st
  = main bracketed_host_ok netloc_nfkc_ok w args st
  /\ (forall r st',
        main bracketed_host_ok netloc_nfkc_ok w (with_backup_file b args) st = (r, st') ->
        only (dump_to_synthesized w) st st')
  /\ (forall url st1 cfg st2,
        target_url args = Some url -> url <> "" ->
        test_connection w (local_config w) (at_source_probe st) = (Ok true, st1) ->
        parse_database_url bracketed_host_ok netloc_nfkc_ok url = Ok cfg ->
        test_connection w cfg st1 = (Ok true, st2) ->
        exists r st' rest,
          main bracketed_host_ok netloc_nfkc_ok w (with_backup_file b args) st = (r, st') /\
          trace st'
          = (trace st2 ++ EPrint MStepBackup :: EPrint MCreatingBackup ::
               ERun (pg_dump_argv w
                       (synthesized_name w (now w (snoc st2 (EPrint MStepBackup)))))
                    (local_password w) :: rest)%list).
Proof.
  intros Ha.
  assert (E : main bracketed_host_ok netloc_nfkc_ok w (with_backup_file b args)
              = main bracketed_host_ok netloc_nfkc_ok w args).
  { unfold main. cbn [action with_backup_file target_url]. rewrite Ha. reflexivity. }
  split; [now rewrite E |]. split.
  - rewrite E. unfold main. rewrite Ha.
    destruct (target_url args) as [url|].
    + destruct (String.eqb url "").
      * intros r st'. apply Only_print, dump_to_synthesized_other. reflexivity.
      * apply migrate_dumps.
    + intros r st'. apply Only_print, dump_to_synthesized_other. reflexivity.
  - intros url st1 cfg st2 Hu Hne H1 Hp H2.
    rewrite E, (main_migrate _ _ _ Ha Hu Hne).
    eapply migrate_backs_up_to_synthesized; eassumption.
Qed.

End Migration.

(** ** Concrete runs *)

(** Nothing answers: the migration stops at the source probe. *)
Lemma migrate_aborts_before_backup_witness :
  exists st_probe reason,
    main ok_check ok_check (sample_world [] 0 0) (args_of Migrate None (Some sample_url)) st0
    = (Ok tt, snoc st_probe (EPrint reason)) /\
    last_event (snoc st_probe (EPrint reason)) = Some (EPrint reason) /\
    quiet st0 (snoc st_probe (EPrint reason)) /\
    ((reason = MCannotConnectLocal /\
      test_connection (sample_world [] 0 0) (local_config (sample_world [] 0 0))
                      (at_source_probe st0) = (Ok false, st_probe))
     \/ (reason = MCannotConnectTarget /\
         exists st1 cfg,
           test_connection (sample_world [] 0 0) (local_config (sample_world [] 0 0))
                           (at_source_probe st0) = (Ok true, st1) /\
           test_connection (sample_world [] 0 0) cfg st1 = (Ok false, st_probe))).
Proof.
  apply (migrate_aborts_before_backup ok_check ok_check (sample_world [] 0 0)
           (args_of Migrate None (Some sample_url)) sample_url st0).
  - reflexivity.
  - reflexivity.
  - discriminate.
  - left. eexists. reflexivity.
Defined.

(** [pg_restore] ends with status 1: the restore still answers [True]. *)
Lemma restore_is_lenient_witness :
  fst (restore_database (sample_world [] 0 1) "db.dump" sample_target st0) = Ok true.
Proof.
  destruct (restore_is_lenient (sample_world [] 0 1) "db.dump" sample_target
              sample_restore_argv "p" st0 eq_refl eq_refl) as [H _].
  rewrite (H {| returncode := 1; stderr := "restore: warning" |} ∅ eq_refl).
  reflexivity.
Defined.

(** [pg_dump] ends with status zero and leaves its archive. *)
Lemma backup_outcomes_witness :
  exists st',
    backup_database (sample_world [] 0 0) None st0 = (Ok (Some sample_name), st') /\
    files st' = <[sample_name := 2048%Z]> ∅ /\
    last_event st' = Some (EPrint (MFileSize 2048)).
Proof.
  destruct (backup_outcomes (sample_world [] 0 0) None st0) as [H _].
  apply (H {| returncode := 0; stderr := "dump: error" |} (<[sample_name := 2048%Z]> ∅) 2048%Z);
    reflexivity.
Defined.

(** C5: the code at a [pg_dump] that ends with status zero and leaves
    no archive at the path it was given.  [backup_database] prints that
    the backup was created, asks for the size of the file, and the
    [FileNotFoundError] of that query, raised inside the [try], is caught
    by the handler written for the missing binary: the backup prints
    that [pg_dump] was not found and returns [None], not the path.  The
    last line is the one a run without [pg_dump] installed ends on. *)
Theorem backup_status_zero_without_archive :
  run hollow_world (snoc st0 (EPrint MCreatingBackup))
      (pg_dump_argv hollow_world sample_name) (local_password hollow_world)
  = (Ok {| returncode := 0; stderr := "" |}, ∅)
  /\ backup_database hollow_world None st0
     = (Ok None,
        {| trace := [EPrint MCreatingBackup;
                     ERun (pg_dump_argv hollow_world sample_name) "postgres";
                     EPrint (MBackupCreated sample_name);
                     EGetsize sample_name;
                     EPrint MPgDumpNotFound];
           files := ∅ |})
  /\ last_event (snd (backup_database bare_world None st0))
     = last_event (snd (backup_database hollow_world None st0)).
Proof. repeat split; reflexivity. Qed.

(** The name made up on 2024-03-07 at 09:05:01. *)
Lemma backup_name_is_synthesized_witness :
  backup_target (sample_world [] 0 0) (Some "") st0 = (Ok sample_name, st0).
Proof.
  refine (proj1 (backup_name_is_synthesized (sample_world [] 0 0) (Some "") st0 eq_refl _)).
  unfold valid_datetime; cbn; lia.
Defined.

(** Both hosts answer, the dump succeeds, the restore ends with
    warnings: the migration completes. *)
Lemma migrate_done_witness :
  exists st',
    main ok_check ok_check (sample_world ["localhost"; "h"] 0 1)
         (args_of Migrate None (Some sample_url)) st0 = (Ok tt, st') /\
    last_event st' = Some (EPrint (MCanDeleteBackup sample_name)) /\
    files st' !! sample_name = Some 2048%Z.
Proof.
  destruct (migrate_done ok_check ok_check (sample_world ["localhost"; "h"] 0 1)
              (args_of Migrate None (Some sample_url)) sample_url st0
              _ _ _ _ sample_target sample_name
              eq_refl eq_refl ltac:(discriminate) eq_refl eq_refl eq_refl eq_refl eq_refl)
    as (st' & Hmain & Htrace & _ & _ & Hfiles).
  exists st'. split; [exact Hmain |]. split.
  - unfold last_event. rewrite Htrace. reflexivity.
  - rewrite Hfiles. reflexivity.
Defined.

(** The table count fails after the size query gave its row. *)
Lemma info_is_all_or_nothing_witness :
  exists st',
    get_database_info bare_world sample_target st0 = (Ok None, st') /\
    last_event st'
    = Some (EPrint (MInfoError (Exn (OtherException "ProgrammingError") "permission denied"))).
Proof.
  destruct (info_is_all_or_nothing bare_world sample_target st0) as [_ H].
  destruct (H eq_refl) as (_ & H2 & _).
  eexists. split.
  - eapply H2; reflexivity.
  - reflexivity.
Defined.

(** A migration given [--backup-file] runs as one given none, and
    dumps to the synthesized name, not to the file of the flag. *)
Lemma migrate_ignores_backup_file_flag_witness :
  main ok_check ok_check (sample_world ["localhost"; "h"] 0 0)
       (with_backup_file (Some "mine.dump") (args_of Migrate None (Some sample_url))) st0
  = main ok_check ok_check (sample_world ["localhost"; "h"] 0 0)
         (args_of Migrate None (Some sample_url)) st0
  /\ exists r st' before rest,
       main ok_check ok_check (sample_world ["localhost"; "h"] 0 0)
            (with_backup_file (Some "mine.dump") (args_of Migrate None (Some sample_url))) st0
       = (r, st') /\
       trace st'
       = (before ++ EPrint MStepBackup :: EPrint MCreatingBackup ::
            ERun (pg_dump_argv (sample_world ["localhost"; "h"] 0 0) sample_name) "postgres"
            :: rest)%list.
Proof.
  destruct (migrate_ignores_backup_file_flag ok_check ok_check
              (sample_world ["localhost"; "h"] 0 0)
              (args_of Migrate None (Some sample_url)) (Some "mine.dump") st0 eq_refl)
    as (Hsame & _ & Hdump).
  split; [exact Hsame |].
  destruct (Hdump sample_url _ sample_target _ eq_refl ltac:(discriminate)
              eq_refl eq_refl eq_refl) as (r & st' & rest & Hmain & Htrace).
  eexists r, st', _, rest. split; [exact Hmain | exact Htrace].
Defined.

(** No port in the URL: port 5432. *)
Lemma parse_database_url_components_witness :
  exists cfg,
    parse_database_url ok_check ok_check "postgresql://u:p@h/dbname" = Ok cfg /\
    port cfg = "5432".
Proof.
  destruct (parse_database_url_components ok_check ok_check) as (_ & H & _).
  eapply H; reflexivity.
Defined.



(** * Further properties of the script *)

(** ** What the resolver raises *)

Lemma parse_database_url_raises bh nf url e :
  parse_database_url bh nf url = Raise e -> exn_cls e = ValueError.
Proof.
  unfold parse_database_url.
  destruct (Url.urlparse bh nf url) as [r | e'] eqn:E.
  - destruct (Url.port r) as [p | e''] eqn:Ep; [discriminate |].
    intros [= <-]. eapply port_raises, Ep.
  - intros [= <-]. eapply urlparse_raises, E.
Qed.

(** ** The migration, step by step *)

Section MigrationSteps.

Variable bracketed_host_ok : string -> bool.
Variable netloc_nfkc_ok : string -> bool.
Variable w : World.

(** A migration without a usable [--target-url] prints the line that
    asks for it and does nothing else. *)
Theorem migrate_requires_target_url (args : Args) (st : State) :
  action args = Migrate ->
  truthy (target_url args) = false ->
  main bracketed_host_ok netloc_nfkc_ok w args st
  = (Ok tt, snoc st (EPrint MTargetUrlRequired)).
Proof.
  intros Ha H. unfold main. rewrite Ha.
  destruct (target_url args) as [u|]; [| reflexivity].
  cbn in H. destruct (String.eqb u ""); [reflexivity | discriminate].
Qed.

(** The target URL is parsed only after the source probe succeeded: a
    URL that does not parse then makes [main] raise the [ValueError],
    with nothing done after that probe. *)
Theorem migrate_bad_url_raises (args : Args) (url : string) (st st1 : State) (e : exn) :
  action args = Migrate -> target_url args = Some url -> url <> "" ->
  test_connection w (local_config w) (at_source_probe st) = (Ok true, st1) ->
  parse_database_url bracketed_host_ok netloc_nfkc_ok url = Raise e ->
  main bracketed_host_ok netloc_nfkc_ok w args st = (Raise e, st1) /\
  exn_cls e = ValueError.
Proof.
  intros Ha Hu Hne H1 Hp. rewrite (main_migrate _ _ _ _ _ _ Ha Hu Hne).
  split.
  - unfold migrate, bind. rewrite !print_run.
    fold (at_source_probe st). rewrite H1. cbn [negb].
    unfold parse_url, lift. rewrite Hp. reflexivity.
  - eapply parse_database_url_raises, Hp.
Qed.

(** A migration whose backup step returns no path prints the line
    that the backup failed and stops: nothing follows the backup step,
    so [pg_restore] is not started and the target is left alone. *)
Theorem migrate_stops_when_backup_fails (args : Args) (url : string)
    (st st1 st2 st3 : State) (cfg : Config) :
  action args = Migrate -> target_url args = Some url -> url <> "" ->
  test_connection w (local_config w) (at_source_probe st) = (Ok true, st1) ->
  parse_database_url bracketed_host_ok netloc_nfkc_ok url = Ok cfg ->
  test_connection w cfg st1 = (Ok true, st2) ->
  backup_database w None (snoc st2 (EPrint MStepBackup)) = (Ok None, st3) ->
  main bracketed_host_ok netloc_nfkc_ok w args st
  = (Ok tt, snoc st3 (EPrint MBackupFailedAbort)).
Proof.
  intros Ha Hu Hne H1 Hp H2 Hb. rewrite (main_migrate _ _ _ _ _ _ Ha Hu Hne).
  unfold migrate, bind. rewrite !print_run.
  fold (at_source_probe st). rewrite H1. cbn [negb].
  unfold parse_url, lift. rewrite Hp, H2. cbn [negb].
  rewrite print_run, Hb. reflexivity.
Qed.

(** A migration whose restore step answers [False] ends on the line
    that the migration failed during restore; it does not say the
    backup may be deleted, and the archive written by the backup step
    was on disk when the restore began. *)
Theorem migrate_reports_failed_restore (args : Args) (url : string)
    (st st1 st2 st3 st4 : State) (cfg : Config) (file : string) :
  action args = Migrate -> target_url args = Some url -> url <> "" ->
  test_connection w (local_config w) (at_source_probe st) = (Ok true, st1) ->
  parse_database_url bracketed_host_ok netloc_nfkc_ok url = Ok cfg ->
  test_connection w cfg st1 = (Ok true, st2) ->
  backup_database w None (snoc st2 (EPrint MStepBackup)) = (Ok (Some file), st3) ->
  restore_database w file cfg (snoc st3 (EPrint MStepRestore)) = (Ok false, st4) ->
  main bracketed_host_ok netloc_nfkc_ok w args st
  = (Ok tt, snoc st4 (EPrint MMigrationFailedRestore)) /\
  (exists n, files st3 !! file = Some n) /\
  last_event st4 = Some (EPrint MPgRestoreNotFound).
Proof.
  intros Ha Hu Hne H1 Hp H2 Hb Hr. rewrite (main_migrate _ _ _ _ _ _ Ha Hu Hne).
  rewrite (migrate_through _ _ _ _ _ _ _ _ _ _ H1 Hp H2 Hb), Hr.
  split; [reflexivity |].
  destruct (backup_database_some w None _ file st3 Hb) as [_ Hdisk].
  split; [exact Hdisk |].
  destruct (all_str (pg_restore_cmd file cfg)) as [argv|] eqn:Hargv.
  2: { destruct (restore_database_none w file cfg (snoc st3 (EPrint MStepRestore))
                   (or_introl Hargv)) as (e & He & _). congruence. }
  destruct (password cfg) as [pw|] eqn:Hpw.
  2: { destruct (restore_database_none w file cfg (snoc st3 (EPrint MStepRestore))
                   (or_intror Hpw)) as (e & He & _). congruence. }
  rewrite (restore_database_run w file cfg argv pw _ Hargv Hpw) in Hr. cbn zeta in Hr.
  destruct (run w _ argv pw) as [[c | e] fs]; [discriminate |].
  destruct (is_FileNotFoundError e); [| discriminate].
  injection Hr as <-. apply last_event_snoc.
Qed.

(** A restore step that raises (a descriptor with a [None] in it, or an
    exception of [subprocess.run] other than [FileNotFoundError]) makes
    the migration raise, after the backup was made. *)
Theorem migrate_restore_raises (args : Args) (url : string)
    (st st1 st2 st3 st4 : State) (cfg : Config) (file : string) (e : exn) :
  action args = Migrate -> target_url args = Some url -> url <> "" ->
  test_connection w (local_config w) (at_source_probe st) = (Ok true, st1) ->
  parse_database_url bracketed_host_ok netloc_nfkc_ok url = Ok cfg ->
  test_connection w cfg st1 = (Ok true, st2) ->
  backup_database w None (snoc st2 (EPrint MStepBackup)) = (Ok (Some file), st3) ->
  restore_database w file cfg (snoc st3 (EPrint MStepRestore)) = (Raise e, st4) ->
  main bracketed_host_ok netloc_nfkc_ok w args st = (Raise e, st4) /\
  exists n, files st3 !! file = Some n.
Proof.
  intros Ha Hu Hne H1 Hp H2 Hb Hr. rewrite (main_migrate _ _ _ _ _ _ Ha Hu Hne).
  rewrite (migrate_through _ _ _ _ _ _ _ _ _ _ H1 Hp H2 Hb), Hr.
  split; [reflexivity |].
  now destruct (backup_database_some w None _ file st3 Hb) as [_ Hdisk].
Qed.

End MigrationSteps.

(** ** Frames: what a computation adds to the trace and does to the files *)

Lemma Keeps_ret {A} (a : A) : Keeps (ret a).
Proof. now intros st r st' [= _ <-]. Qed.

Lemma Keeps_lift {A} (x : result A) : Keeps (lift x).
Proof. now intros st r st' [= _ <-]. Qed.

Lemma Keeps_emit e : Keeps (emit e).
Proof. now intros st r st' [= _ <-]. Qed.

Lemma Keeps_print m : Keeps (print m).
Proof. apply Keeps_emit. Qed.

Lemma Keeps_bind {A B} (c : M A) (k : A -> M B) :
  Keeps c -> (forall a, Keeps (k a)) -> Keeps (bind c k).
Proof.
  intros Hc Hk st r st'. unfold bind.
  destruct (c st) as [[a | e] s1] eqn:E.
  - intros Hrun. rewrite (Hk _ _ _ _ Hrun). eapply Hc, E.
  - intros [= _ <-]. eapply Hc, E.
Qed.

Lemma Keeps_try_except {A} (c : M A) catches h :
  Keeps c -> (forall e, Keeps (h e)) -> Keeps (try_except c catches h).
Proof.
  intros Hc Hh st r st'. unfold try_except.
  destruct (c st) as [[a | e] s1] eqn:E.
  - intros [= _ <-]. eapply Hc, E.
  - destruct (catches e).
    + intros Hrun. rewrite (Hh _ _ _ _ Hrun). eapply Hc, E.
    + intros [= _ <-]. eapply Hc, E.
Qed.

Lemma Keeps_psycopg2_connect w cfg : Keeps (psycopg2_connect w cfg).
Proof.
  intros st r st'. unfold psycopg2_connect.
  destruct (connect w st cfg); now intros [= _ <-].
Qed.

Lemma Keeps_psycopg2_close w : Keeps (psycopg2_close w).
Proof.
  intros st r st'. unfold psycopg2_close.
  destruct (close w st); now intros [= _ <-].
Qed.

Lemma Keeps_cursor_execute w q : Keeps (cursor_execute w q).
Proof.
  intros st r st'. unfold cursor_execute.
  destruct (execute w st q); now intros [= _ <-].
Qed.

Lemma Keeps_cursor_fetchone w : Keeps (cursor_fetchone w).
Proof. now intros st r st' [= _ <-]. Qed.

Lemma Only_cursor_execute (P : event -> Prop) w q :
  P (EExecute q) -> Only P (cursor_execute w q).
Proof.
  intros HP st r st'. unfold cursor_execute.
  destruct (execute w st q); intros [= _ <-]; now apply only_snoc.
Qed.

Lemma Only_cursor_fetchone (P : event -> Prop) w :
  P EFetchone -> Only P (cursor_fetchone w).
Proof. intros HP st r st' [= _ <-]. now apply only_snoc. Qed.

(** One step of a frame proof; [tac] shows the property of one event. *)
Ltac frame_step tac :=
  lazymatch goal with
  | |- Only _ (ret _) => apply Only_ret
  | |- Only _ (lift _) => apply Only_lift
  | |- Only _ (raise _) => apply Only_raise
  | |- Only _ (print _) => apply Only_print; tac
  | |- Only _ (emit _) => apply Only_emit; tac
  | |- Only _ (psycopg2_connect _ _) => apply Only_psycopg2_connect; tac
  | |- Only _ (psycopg2_close _) => apply Only_psycopg2_close; tac
  | |- Only _ (cursor_execute _ _) => apply Only_cursor_execute; tac
  | |- Only _ (cursor_fetchone _) => apply Only_cursor_fetchone; tac
  | |- Only _ (getsize _) => apply Only_getsize; tac
  | |- Only _ (bind _ _) => apply Only_bind; [| intros ?]
  | |- Only _ (try_except _ _ _) => apply Only_try_except; [| intros ?]
  | |- Only _ (if ?b then _ else _) => destruct b
  | |- Only _ (match ?x with _ => _ end) => destruct x
  | |- Keeps (ret _) => apply Keeps_ret
  | |- Keeps (lift _) => apply Keeps_lift
  | |- Keeps (print _) => apply Keeps_print
  | |- Keeps (emit _) => apply Keeps_emit
  | |- Keeps (psycopg2_connect _ _) => apply Keeps_psycopg2_connect
  | |- Keeps (psycopg2_close _) => apply Keeps_psycopg2_close
  | |- Keeps (cursor_execute _ _) => apply Keeps_cursor_execute
  | |- Keeps (cursor_fetchone _) => apply Keeps_cursor_fetchone
  | |- Keeps (bind _ _) => apply Keeps_bind; [| intros ?]
  | |- Keeps (try_except _ _ _) => apply Keeps_try_except; [| intros ?]
  | |- Keeps (if ?b then _ else _) => destruct b
  | |- Keeps (match ?x with _ => _ end) => destruct x
  end.

Ltac open_steps :=
  unfold migrate;
  unfold test_connection, get_database_info, database_info_body, fetch,
    backup_database, restore_database, parse_url, deploy_to_railway,
    deploy_to_heroku.

Section Frames.

Variable bracketed_host_ok : string -> bool.
Variable netloc_nfkc_ok : string -> bool.
Variable w : World.

Lemma Only_print_lines (P : event -> Prop) l :
  (forall m, P (EPrint m)) -> Only P (print_lines l).
Proof.
  intros HP. induction l as [| x l IH]; cbn [print_lines].
  - apply Only_ret.
  - apply Only_bind; [apply Only_print, HP | intros _; exact IH].
Qed.

Lemma Keeps_print_lines l : Keeps (print_lines l).
Proof.
  induction l as [| x l IH]; cbn [print_lines].
  - apply Keeps_ret.
  - apply Keeps_bind; [apply Keeps_print | intros _; exact IH].
Qed.

(** The actions [info], [test], [deploy-railway] and [deploy-heroku]
    start no external process and leave the files on disk as they
    are, whatever the database answers and however the run ends. *)
Theorem tool_free_actions_are_quiet (args : Args) (st : State) r (st' : State) :
  tool_free (action args) = true ->
  main bracketed_host_ok netloc_nfkc_ok w args st = (r, st') ->
  quiet st st'.
Proof.
  intros Hfree Hrun. split.
  - revert st r st' Hrun.
    change (Only (fun e => is_run e = false) (main bracketed_host_ok netloc_nfkc_ok w args)).
    unfold main. destruct (action args); try discriminate; open_steps;
      repeat first [ apply Only_print_lines; reflexivity
                   | frame_step ltac:(reflexivity) ].
  - revert st r st' Hrun.
    change (Keeps (main bracketed_host_ok netloc_nfkc_ok w args)).
    unfold main. destruct (action args); try discriminate; open_steps;
      repeat first [ apply Keeps_print_lines | frame_step idtac ].
Qed.

Lemma pg_dump_cmd_tool file argv pw :
  all_str (pg_dump_cmd w file) = Some argv -> is_pg_tool (ERun argv pw) = true.
Proof. unfold pg_dump_cmd. intros H. apply all_str_head in H as [r ->]. reflexivity. Qed.

Lemma pg_restore_cmd_tool file cfg argv pw :
  all_str (pg_restore_cmd file cfg) = Some argv -> is_pg_tool (ERun argv pw) = true.
Proof. unfold pg_restore_cmd. intros H. apply all_str_head in H as [r ->]. reflexivity. Qed.

(** Whatever the command line and however the run ends, every process
    the script starts is [pg_dump] or [pg_restore]. *)
Theorem main_starts_only_pg_tools (args : Args) (st : State) r (st' : State) :
  main bracketed_host_ok netloc_nfkc_ok w args st = (r, st') ->
  only (fun e => is_pg_tool e = true) st st'.
Proof.
  revert st r st'.
  change (Only (fun e => is_pg_tool e = true) (main bracketed_host_ok netloc_nfkc_ok w args)).
  unfold main. destruct (action args); open_steps; unfold backup_target;
    repeat first [ apply Only_print_lines; reflexivity
                 | apply Only_subprocess_run; intros ? ? ? _;
                   first [ eapply pg_dump_cmd_tool; eassumption
                         | eapply pg_restore_cmd_tool; eassumption ]
                 | intros ? ? ? [= _ <-]; apply only_refl
                 | frame_step ltac:(reflexivity) ].
Qed.

(** The [restore] action opens no database connection: it does not
    probe the target before it restores into it. *)
Theorem restore_action_never_connects (args : Args) (st : State) r (st' : State) :
  action args = Restore ->
  main bracketed_host_ok netloc_nfkc_ok w args st = (r, st') ->
  only (fun e => is_connect e = false) st st'.
Proof.
  intros Ha. revert st r st'.
  change (Only (fun e => is_connect e = false)
               (main bracketed_host_ok netloc_nfkc_ok w args)).
  unfold main. rewrite Ha. open_steps.
  repeat first [ apply Only_subprocess_run; intros ? ? _ _; reflexivity
               | frame_step ltac:(reflexivity) ].
Qed.

End Frames.

(** ** The prober *)

Section Prober.

Variable w : World.

(** [test_connection] never raises, whichever exception
    [psycopg2.connect] or [conn.close()] raises: it answers [True]
    exactly when the connection opened and closed without one, and
    otherwise [False] after printing that exception as the last line.
    In every case it starts no process and leaves the files alone. *)
Theorem test_connection_never_raises (cfg : Config) (st : State) :
  exists b st',
    test_connection w cfg st = (Ok b, st') /\
    (b = true <->
     connect w st cfg = None /\ close w (snoc st (EConnect cfg)) = None) /\
    (forall e,
        connect w st cfg = Some e \/
        (connect w st cfg = None /\ close w (snoc st (EConnect cfg)) = Some e) ->
        b = false /\ last_event st' = Some (EPrint (MError e))) /\
    quiet st st'.
Proof.
  pose proof (test_connection_quiet w cfg st) as Hq.
  rewrite test_connection_run in *.
  destruct (connect w st cfg) as [e|]; [| destruct (close w _) as [e|]];
    eexists _, _; (split; [reflexivity |]).
  - split; [split; [discriminate | intros [? _]; discriminate] |].
    split; [| eapply Hq; reflexivity].
    intros e' [[= <-] | [? _]]; [| discriminate].
    split; [reflexivity | apply last_event_snoc].
  - split; [split; [discriminate | intros [_ ?]; discriminate] |].
    split; [| eapply Hq; reflexivity].
    intros e' [? | [_ [= <-]]]; [discriminate |].
    split; [reflexivity | apply last_event_snoc].
  - split; [split; [now split | reflexivity] |].
    split; [| eapply Hq; reflexivity].
    intros e' [? | [_ ?]]; discriminate.
Qed.

End Prober.

(** ** The [restore] and [backup] actions *)

Section Actions.

Variable bracketed_host_ok : string -> bool.
Variable netloc_nfkc_ok : string -> bool.
Variable w : World.

Lemma main_restore args file url cfg st :
  action args = Restore ->
  backup_file args = Some file -> file <> "" ->
  target_url args = Some url -> url <> "" ->
  parse_database_url bracketed_host_ok netloc_nfkc_ok url = Ok cfg ->
  main bracketed_host_ok netloc_nfkc_ok w args st
  = match restore_database w file cfg st with
    | (Ok _, s) => (Ok tt, s)
    | (Raise e, s) => (Raise e, s)
    end.
Proof.
  intros Ha Hf Hfne Hu Hune Hp. unfold main. rewrite Ha, Hf, Hu.
  destruct (String.eqb_spec file ""); [contradiction |].
  destruct (String.eqb_spec url ""); [contradiction |].
  cbn [orb]. unfold bind, parse_url, lift. rewrite Hp.
  destruct (restore_database w file cfg st) as [[b | e] s]; reflexivity.
Qed.

Lemma incomplete_restore_cmd file cfg :
  complete cfg = false ->
  all_str (pg_restore_cmd file cfg) = None \/ password cfg = None.
Proof.
  unfold complete, pg_restore_cmd.
  destruct (host cfg); [| now left].
  destruct (username cfg); [| now left].
  destruct (password cfg); [discriminate | now right].
Qed.

(** The [restore] action with a URL that lacks the host, the user or
    the password: the descriptor holds a [None], [subprocess.run]
    raises [TypeError], no handler of the script catches it, and [main]
    raises it with [pg_restore] never started. *)
Theorem restore_action_incomplete_url_raises (args : Args) (file url : string)
    (cfg : Config) (st : State) :
  action args = Restore ->
  backup_file args = Some file -> file <> "" ->
  target_url args = Some url -> url <> "" ->
  parse_database_url bracketed_host_ok netloc_nfkc_ok url = Ok cfg ->
  complete cfg = false ->
  exists e,
    main bracketed_host_ok netloc_nfkc_ok w args st
    = (Raise e, snoc st (EPrint (MRestoring file))) /\
    exn_cls e = TypeError.
Proof.
  intros Ha Hf Hfne Hu Hune Hp Hc.
  rewrite (main_restore _ _ _ _ _ Ha Hf Hfne Hu Hune Hp).
  destruct (restore_database_none w file cfg st (incomplete_restore_cmd file cfg Hc))
    as (e & -> & He).
  now exists e.
Qed.

(** The [restore] action drops the answer of [restore_database]: it
    ends normally when the restore succeeded, when it ended with
    warnings and when [pg_restore] is not installed alike. *)
Theorem restore_action_drops_the_answer (args : Args) (file url : string)
    (cfg : Config) (st : State) (b : bool) (st' : State) :
  action args = Restore ->
  backup_file args = Some file -> file <> "" ->
  target_url args = Some url -> url <> "" ->
  parse_database_url bracketed_host_ok netloc_nfkc_ok url = Ok cfg ->
  restore_database w file cfg st = (Ok b, st') ->
  main bracketed_host_ok netloc_nfkc_ok w args st = (Ok tt, st').
Proof.
  intros Ha Hf Hfne Hu Hune Hp Hr.
  rewrite (main_restore _ _ _ _ _ Ha Hf Hfne Hu Hune Hp), Hr. reflexivity.
Qed.

Lemma chosen_file_not_empty bf st : String.eqb (chosen_file w bf st) "" = false.
Proof.
  unfold chosen_file, truthy. destruct bf as [f|]; [| reflexivity].
  destruct (String.eqb f "") eqn:E; [reflexivity | exact E].
Qed.

Lemma get_database_info_never_raises cfg st :
  exists r st', get_database_info w cfg st = (Ok r, st').
Proof.
  destruct (connect w st cfg) as [e|] eqn:Hc.
  - rewrite (get_database_info_no_connection _ _ _ _ Hc). now eexists _, _.
  - rewrite (get_database_info_run _ _ _ Hc).
    destruct (first_column w QDatabaseSize _) as [[? | ?] ?]; [| now eexists _, _].
    destruct (first_column w QTableCount _) as [[? | ?] ?]; [| now eexists _, _].
    destruct (first_column w QTotalRows _) as [[? | ?] ?]; [| now eexists _, _].
    destruct (close w _); now eexists _, _.
Qed.

(** The [backup] action: when the backup returns no path, nothing
    follows it, so the database is not queried.  When it returns a
    path, the report on the local database is asked for; a failed
    report prints its own error line and the action still ends
    normally, the archive staying where it is. *)
Theorem backup_action_outcome (args : Args) (st : State) :
  action args = Backup ->
  (forall st1,
      backup_database w (backup_file args) st = (Ok None, st1) ->
      main bracketed_host_ok netloc_nfkc_ok w args st = (Ok tt, st1))
  /\ (forall f st1,
        backup_database w (backup_file args) st = (Ok (Some f), st1) ->
        exists r st2,
          get_database_info w (local_config w) st1 = (Ok r, st2) /\
          files st2 = files st1 /\
          main bracketed_host_ok netloc_nfkc_ok w args st
          = (Ok tt, match r with
                    | Some i => snoc st2 (EPrint (MDatabaseInfo i))
                    | None => st2
                    end)).
Proof.
  intros Ha. unfold main. rewrite Ha. split.
  - intros st1 Hb. unfold bind. rewrite Hb. reflexivity.
  - intros f st1 Hb.
    destruct (backup_database_some w _ _ f st1 Hb) as [Hf _].
    destruct (get_database_info_never_raises (local_config w) st1) as (r & st2 & Hi).
    exists r, st2. split; [exact Hi |]. split.
    + revert Hi. generalize st1 (@Ok (option DbInfo) r) st2.
      change (Keeps (get_database_info w (local_config w))).
      open_steps. repeat frame_step idtac.
    + unfold bind. rewrite Hb. cbn [truthy].
      rewrite Hf, chosen_file_not_empty. cbn [negb]. rewrite Hi.
      destruct r; reflexivity.
Qed.

End Actions.

(** ** The info reporter, further *)

Section InfoReporterMore.

Variable w : World.

Lemma first_column_no_close q : Only (fun e => is_close e = false) (first_column w q).
Proof. unfold first_column, fetch. repeat frame_step ltac:(reflexivity). Qed.

(** A report that is returned never holds [None] (nor another falsy
    value than [0]) as its row count: a sum that is [NULL], as over no
    table at all, is reported as [0]. *)
Theorem info_rows_default_to_zero (cfg : Config) (st : State) (info : DbInfo) (st' : State) :
  get_database_info w cfg st = (Ok (Some info), st') ->
  info_rows info <> VNone /\
  (info_rows info = VInt 0 \/ pyval_truthy (info_rows info) = true).
Proof.
  destruct (connect w st cfg) as [e|] eqn:Hc.
  { rewrite (get_database_info_no_connection _ _ _ _ Hc). discriminate. }
  rewrite (get_database_info_run _ _ _ Hc).
  destruct (first_column w QDatabaseSize _) as [[size | ?] s1]; [| discriminate].
  destruct (first_column w QTableCount _) as [[tables | ?] s2]; [| discriminate].
  destruct (first_column w QTotalRows _) as [[r0 | ?] s3]; [| discriminate].
  destruct (close w s3); [discriminate |].
  intros [= <- _]. cbn [info_rows]. unfold or_zero.
  destruct (pyval_truthy r0) eqn:Ht.
  - split; [intros ->; discriminate | now right].
  - split; [discriminate | now left].
Qed.

(** [conn.close()] is called only once all three queries have given
    their value.  A returned report has the close as its last act.  A
    report that fails after the connection opened leaves it unclosed,
    unless the failure is that of the close itself, which comes after
    the three queries. *)
Theorem info_closes_only_on_success (cfg : Config) (st : State)
    (r : option DbInfo) (st' : State) :
  connect w st cfg = None ->
  get_database_info w cfg st = (Ok r, st') ->
  (forall info, r = Some info -> last_event st' = Some EClose) /\
  (r = None ->
   only (fun e => is_close e = false) st st' \/
   exists size s1 tables s2 r0 s3 e,
     first_column w QDatabaseSize (with_cursor cfg st) = (Ok size, s1) /\
     first_column w QTableCount s1 = (Ok tables, s2) /\
     first_column w QTotalRows s2 = (Ok r0, s3) /\
     close w s3 = Some e /\
     st' = snoc (snoc s3 EClose) (EPrint (MInfoError e))).
Proof.
  intros Hc. rewrite (get_database_info_run _ _ _ Hc).
  assert (H0 : only (fun e => is_close e = false) st (with_cursor cfg st)).
  { unfold with_cursor. eapply only_trans; apply only_snoc; reflexivity. }
  destruct (first_column w QDatabaseSize _) as [[size | e1] s1] eqn:E1.
  2: { intros [= <- <-]. split; [discriminate | intros _; left].
       eapply only_trans; [exact H0 |].
       eapply only_trans; [eapply first_column_no_close, E1 |].
       apply only_snoc; reflexivity. }
  destruct (first_column w QTableCount _) as [[tables | e2] s2] eqn:E2.
  2: { intros [= <- <-]. split; [discriminate | intros _; left].
       eapply only_trans; [exact H0 |].
       eapply only_trans; [eapply first_column_no_close, E1 |].
       eapply only_trans; [eapply first_column_no_close, E2 |].
       apply only_snoc; reflexivity. }
  destruct (first_column w QTotalRows _) as [[r0 | e3] s3] eqn:E3.
  2: { intros [= <- <-]. split; [discriminate | intros _; left].
       eapply only_trans; [exact H0 |].
       eapply only_trans; [eapply first_column_no_close, E1 |].
       eapply only_trans; [eapply first_column_no_close, E2 |].
       eapply only_trans; [eapply first_column_no_close, E3 |].
       apply only_snoc; reflexivity. }
  destruct (close w s3) as [e|] eqn:Ecl.
  - intros [= <- <-]. split; [discriminate | intros _; right].
    now exists size, s1, tables, s2, r0, s3, e.
  - intros [= <- <-]. split; [intros _ _; apply last_event_snoc | discriminate].
Qed.

End InfoReporterMore.

(** ** The port of a parsed URL *)

Lemma code_digit d : (0 <= d <= 9)%Z -> Z.of_nat (Str.code (Str.digit d) - 48) = d.
Proof.
  intros Hd. unfold Str.code, Str.digit.
  rewrite nat_ascii_embedding by lia. lia.
Qed.

(** Reading back the digits written for [n] in front of [acc]. *)
Lemma int_acc_digits fuel : forall n acc,
  (0 <= n < 10 ^ Z.of_nat fuel)%Z ->
  Str.int_acc 0 (Str.digits fuel n acc) = Str.int_acc n acc.
Proof.
  induction fuel as [| f IH]; intros n acc Hn.
  - cbn in Hn. assert (n = 0%Z) as -> by lia. reflexivity.
  - rewrite Nat2Z.inj_succ, Z.pow_succ_r in Hn by lia.
    cbn [Str.digits].
    assert (Hd : (0 <= n mod 10 <= 9)%Z) by (Z.div_mod_to_equations; lia).
    destruct (Z.eqb_spec (n / 10) 0) as [Hq | Hq].
    + cbn [Str.int_acc]. rewrite (code_digit _ Hd).
      f_equal. Z.div_mod_to_equations; lia.
    + rewrite IH by (Z.div_mod_to_equations; lia).
      cbn [Str.int_acc]. rewrite (code_digit _ Hd).
      f_equal. Z.div_mod_to_equations; lia.
Qed.

(** [int(str(n)) == n] *)
Lemma int_of_Z n : (0 <= n)%Z -> Str.int (Str.of_Z n) = n.
Proof.
  intros Hn. unfold Str.of_Z, Str.int.
  destruct (Z.ltb_spec n 0); [lia |].
  rewrite int_acc_digits; [reflexivity |].
  split; [exact Hn |].
  rewrite Nat2Z.inj_succ, Z2Nat.id by apply Z.log2_nonneg.
  destruct (Z.eq_dec n 0%Z) as [-> | Hne]; [reflexivity |].
  apply Z.lt_le_trans with (2 ^ Z.succ (Z.log2 n))%Z.
  - apply Z.log2_spec. lia.
  - apply Z.pow_le_mono_l. lia.
Qed.

Lemma port_range r n : Url.port r = Ok (Some n) -> (0 <= n <= 65535)%Z.
Proof.
  unfold Url.port. destruct (snd _) as [p|]; [| discriminate].
  destruct (Str.is_digits p); [| discriminate].
  destruct (_ <? _)%Z; [discriminate |].
  destruct (_ && _) eqn:E; [| discriminate].
  intros [= <-]. apply andb_prop in E as [E1 E2]. lia.
Qed.

Section Port.

Variable bracketed_host_ok : string -> bool.
Variable netloc_nfkc_ok : string -> bool.

(** A URL with port [0] gives port [5432], as if it had none.  Any
    other port is kept, as its decimal digits without leading zeros:
    read back as a number it is the port of the URL. *)
Theorem parse_database_url_port (url : string) (r : Url.ParseResult) (n : Z) :
  Url.urlparse bracketed_host_ok netloc_nfkc_ok url = Ok r ->
  Url.port r = Ok (Some n) ->
  exists cfg,
    parse_database_url bracketed_host_ok netloc_nfkc_ok url = Ok cfg /\
    (n = 0%Z -> port cfg = "5432") /\
    (n <> 0%Z -> port cfg = Str.of_Z n /\ Str.int (port cfg) = n).
Proof.
  intros Hr Hp. pose proof (port_range r n Hp) as Hn.
  unfold parse_database_url. rewrite Hr, Hp.
  eexists. split; [reflexivity |]. cbn [port]. split.
  - intros ->. reflexivity.
  - intros Hne. destruct (Z.eqb_spec n 0); [contradiction |].
    split; [reflexivity | apply int_of_Z; lia].
Qed.

(** A URL whose port is not a string of ASCII digits, or is a number
    above 65535, makes the resolver raise a [ValueError]: it does not
    fall back to the default port. *)
Theorem parse_database_url_bad_port (url : string) (r : Url.ParseResult) (p : string) :
  Url.urlparse bracketed_host_ok netloc_nfkc_ok url = Ok r ->
  snd (Url.hostinfo r) = Some p ->
  Str.is_digits p = false \/ (65535 < Str.int p)%Z ->
  exists e,
    parse_database_url bracketed_host_ok netloc_nfkc_ok url = Raise e /\
    exn_cls e = ValueError.
Proof.
  intros Hr Hp Hbad. unfold parse_database_url, Url.port. rewrite Hr, Hp.
  destruct (Str.is_digits p).
  - destruct Hbad as [? | Hbig]; [discriminate |].
    destruct (_ <? _)%Z; [eexists; split; reflexivity |].
    destruct (Z.leb_spec (Str.int p) 65535); [lia |].
    rewrite andb_false_r. eexists. split; reflexivity.
  - eexists. split; reflexivity.
Qed.

End Port.

(** ** The invokers, further *)

Lemma append_inj_l (s a b : string) : s +:+ a = s +:+ b -> a = b.
Proof.
  induction s as [| c s IH]; cbn; [trivial |].
  intros [= H]. now apply IH.
Qed.

Lemma digit_inj a b :
  (0 <= a <= 9)%Z -> (0 <= b <= 9)%Z -> Str.digit a = Str.digit b -> a = b.
Proof.
  intros Ha Hb H. unfold Str.digit in H.
  apply (f_equal nat_of_ascii) in H.
  rewrite !nat_ascii_embedding in H by lia. lia.
Qed.

Lemma two_digits_inj a b :
  (0 <= a <= 99)%Z -> (0 <= b <= 99)%Z -> two_digits a = two_digits b -> a = b.
Proof.
  intros Ha Hb. unfold two_digits. intros [= H1 H2].
  apply digit_inj in H1; [| Z.div_mod_to_equations; lia ..].
  apply digit_inj in H2; [| Z.div_mod_to_equations; lia ..].
  Z.div_mod_to_equations; lia.
Qed.

Lemma four_digits_inj a b :
  (1000 <= a <= 9999)%Z -> (1000 <= b <= 9999)%Z ->
  four_digits a = four_digits b -> a = b.
Proof.
  intros Ha Hb. unfold four_digits. intros [= H1 H2 H3].
  apply digit_inj in H1; [| Z.div_mod_to_equations; lia ..].
  apply digit_inj in H2; [| Z.div_mod_to_equations; lia ..].
  assert (H4 : (a mod 100 = b mod 100)%Z).
  { apply two_digits_inj; [Z.div_mod_to_equations; lia .. |].
    unfold two_digits. congruence. }
  Z.div_mod_to_equations; lia.
Qed.

Section InvokersMore.

Variable w : World.

(** Backups of one database made in different seconds get different
    names: the synthesized name determines the second it was made in. *)
Theorem synthesized_names_tell_seconds_apart (t1 t2 : DateTime) :
  valid_datetime t1 -> valid_datetime t2 ->
  synthesized_name w t1 = synthesized_name w t2 ->
  same_second t1 t2.
Proof.
  intros V1 V2 H. unfold synthesized_name in H.
  apply (append_inj_l "backup_") in H.
  apply append_inj_l in H.
  apply (append_inj_l "_") in H.
  rewrite (strftime_spec _ V1), (strftime_spec _ V2) in H.
  destruct V1 as (Hy1 & Hm1 & Hd1 & Hh1 & Hmi1 & Hs1 & _).
  destruct V2 as (Hy2 & Hm2 & Hd2 & Hh2 & Hmi2 & Hs2 & _).
  unfold spec_timestamp, four_digits, two_digits in H.
  cbn [String.append] in H.
  injection H as Y1 Y2 Y3 Y4 M1 M2 D1 D2 H1 H2 Mi1 Mi2 S1 S2.
  repeat split.
  - apply four_digits_inj; [lia .. |]. unfold four_digits, two_digits. congruence.
  - apply two_digits_inj; [lia .. |]. unfold two_digits. congruence.
  - apply two_digits_inj; [lia .. |]. unfold two_digits. congruence.
  - apply two_digits_inj; [lia .. |]. unfold two_digits. congruence.
  - apply two_digits_inj; [lia .. |]. unfold two_digits. congruence.
  - apply two_digits_inj; [lia .. |]. unfold two_digits. congruence.
Qed.

(** [pg_dump] ended with status zero but its archive is not on disk:
    the size query raises [FileNotFoundError] inside the [try], the
    handler written for the missing binary catches it, and the backup
    answers [None] after printing that [pg_dump] was not found. *)
Theorem backup_reports_missing_archive_as_missing_tool (bf : pystr) (st : State)
    (c : Completed) (fs : gmap string Z) :
  run w (snoc st (EPrint MCreatingBackup))
      (pg_dump_argv w (chosen_file w bf st)) (local_password w) = (Ok c, fs) ->
  returncode c = 0%Z ->
  fs !! chosen_file w bf st = None ->
  exists st',
    backup_database w bf st = (Ok None, st') /\
    last_event st' = Some (EPrint MPgDumpNotFound) /\
    In (EPrint (MBackupCreated (chosen_file w bf st))) (trace st').
Proof.
  intros Hrun Hrc Hfs. rewrite backup_database_run. cbn zeta.
  rewrite Hrun, Hrc, Hfs. eexists. split; [reflexivity |].
  split; [apply last_event_snoc |].
  cbn. rewrite !in_app_iff. cbn. tauto.
Qed.


(** [restore_database] raises in two cases only: the descriptor holds
    a [None] and the exception is the [TypeError] of [subprocess.run],
    raised before any process starts; or starting [pg_restore] raised
    something other than [FileNotFoundError]. *)
Theorem restore_raises_what_it_does_not_handle (file : string) (cfg : Config)
    (st : State) (e : exn) (st' : State) :
  restore_database w file cfg st = (Raise e, st') ->
  (complete cfg = false /\ exn_cls e = TypeError /\
   st' = snoc st (EPrint (MRestoring file)))
  \/ (exists argv pw fs,
        all_str (pg_restore_cmd file cfg) = Some argv /\
        password cfg = Some pw /\
        run w (snoc st (EPrint (MRestoring file))) argv pw = (Raise e, fs) /\
        is_FileNotFoundError e = false).
Proof.
  destruct (all_str (pg_restore_cmd file cfg)) as [argv|] eqn:Hargv.
  2: { destruct (restore_database_none w file cfg st (or_introl Hargv)) as (e' & -> & He').
       intros [= <- <-]. left. split; [| now split].
       unfold complete. unfold pg_restore_cmd in Hargv. cbn in Hargv.
       destruct (host cfg); [| reflexivity].
       destruct (username cfg); [discriminate | reflexivity]. }
  destruct (password cfg) as [pw|] eqn:Hpw.
  2: { destruct (restore_database_none w file cfg st (or_intror Hpw)) as (e' & -> & He').
       intros [= <- <-]. left. split; [| now split].
       unfold complete. rewrite Hpw.
       destruct (host cfg); [| reflexivity].
       destruct (username cfg); reflexivity. }
  rewrite (restore_database_run w file cfg argv pw st Hargv Hpw). cbn zeta.
  destruct (run w _ argv pw) as [[c | e0] fs] eqn:Hrun; [discriminate |].
  destruct (is_FileNotFoundError e0) eqn:He; [discriminate |].
  intros [= <- <-]. right. now exists argv, pw, fs.
Qed.

(** Given a path that is not empty, a successful backup returns that
    very path: it is the file handed to [pg_dump], it is on disk, and
    the clock plays no part. *)
Theorem backup_returns_the_given_path (bf : pystr) (st : State) (f : string) (st' : State) :
  truthy bf = true ->
  backup_database w bf st = (Ok (Some f), st') ->
  bf = Some f /\
  (exists n, files st' !! f = Some n) /\
  In (ERun (pg_dump_argv w f) (local_password w)) (trace st').
Proof.
  intros Ht Hb.
  destruct (backup_database_some w bf st f st' Hb) as [Hf Hdisk].
  assert (Hbf : bf = Some f).
  { unfold chosen_file in Hf. rewrite Ht in Hf.
    destruct bf as [g|]; [cbn in Hf; congruence | discriminate]. }
  split; [exact Hbf |]. split; [exact Hdisk |].
  revert Hb. rewrite backup_database_run. cbn zeta. rewrite <- Hf.
  destruct (run w _ _ _) as [[c | e] fs].
  - destruct (returncode c =? 0)%Z; [| discriminate].
    destruct (fs !! _); [| discriminate].
    intros [= <-]. cbn. rewrite !in_app_iff. cbn. tauto.
  - destruct (is_FileNotFoundError e); discriminate.
Qed.

(** The password is no part of either command line: the arguments of
    [pg_dump] are the same whatever [DB_PASSWORD] holds, and the
    arguments of [pg_restore] the same whatever the password of the
    target is. *)
Theorem password_stays_off_the_command_line (file : string) :
  (forall w', same_but_password w w' -> pg_dump_cmd w' file = pg_dump_cmd w file)
  /\ (forall cfg p, pg_restore_cmd file (with_password p cfg) = pg_restore_cmd file cfg).
Proof.
  split; [| reflexivity].
  intros w' H. unfold pg_dump_cmd, local_config, getenv_or. cbn.
  rewrite !H by discriminate. reflexivity.
Qed.

End InvokersMore.

(** ** The [test] action *)

Section TestAction.

Variable bracketed_host_ok : string -> bool.
Variable netloc_nfkc_ok : string -> bool.
Variable w : World.

(** The [test] action given a URL that parses probes the local
    database and then the target, whatever the first probe answered:
    unlike the migration it does not stop at a failed local probe.  It
    ends normally whatever the two probes answer. *)
Theorem test_action_probes_both (args : Args) (url : string) (cfg : Config) (st : State) :
  action args = Test -> target_url args = Some url -> url <> "" ->
  parse_database_url bracketed_host_ok netloc_nfkc_ok url = Ok cfg ->
  exists b1 st1 b2 st2,
    test_connection w (local_config w) (snoc st (EPrint MTestingLocal)) = (Ok b1, st1) /\
    test_connection w cfg (snoc st1 (EPrint MTestingTarget)) = (Ok b2, st2) /\
    main bracketed_host_ok netloc_nfkc_ok w args st = (Ok tt, st2) /\
    In (EConnect cfg) (trace st2).
Proof.
  intros Ha Hu Hne Hp.
  assert (exists b1 st1,
             test_connection w (local_config w) (snoc st (EPrint MTestingLocal))
             = (Ok b1, st1)) as (b1 & st1 & H1).
  { rewrite test_connection_run.
    destruct (connect w _ _); [| destruct (close w _)]; now eexists _, _. }
  pose proof (test_connection_run w cfg (snoc st1 (EPrint MTestingTarget))) as H2.
  exists b1, st1.
  destruct (connect w (snoc st1 (EPrint MTestingTarget)) cfg) as [e|];
    [| destruct (close w _) as [e|]];
    eexists _, _; (split; [exact H1 |]); (split; [exact H2 |]);
    (split; [| cbn; rewrite !in_app_iff; cbn; tauto]);
    unfold main; rewrite Ha, Hu;
    (destruct (String.eqb_spec url ""); [contradiction |]);
    unfold bind; rewrite print_run, H1, print_run;
    unfold parse_url, lift; rewrite Hp, H2; reflexivity.
Qed.

End TestAction.

(** ** Concrete runs, further *)

Lemma migrate_requires_target_url_witness :
  main ok_check ok_check bare_world (args_of Migrate (Some "db.dump") None) st0
  = (Ok tt, snoc st0 (EPrint MTargetUrlRequired)).
Proof. apply migrate_requires_target_url; reflexivity. Defined.

(** The source answers and the URL has an unclosed bracket. *)
Lemma migrate_bad_url_raises_witness :
  exists st1,
    main ok_check ok_check (sample_world ["localhost"] 0 0)
         (args_of Migrate None (Some "postgresql://u:p@[::1/db")) st0
    = (Raise (Exn ValueError "Invalid IPv6 URL"), st1).
Proof.
  eexists.
  refine (proj1 (migrate_bad_url_raises ok_check ok_check (sample_world ["localhost"] 0 0)
                   (args_of Migrate None (Some "postgresql://u:p@[::1/db"))
                   "postgresql://u:p@[::1/db" st0 _ _
                   eq_refl eq_refl ltac:(discriminate) eq_refl eq_refl)).
Defined.

(** [pg_dump] ends with status 1. *)
Lemma migrate_stops_when_backup_fails_witness :
  exists st3,
    main ok_check ok_check (sample_world ["localhost"; "h"] 1 0)
         (args_of Migrate None (Some sample_url)) st0
    = (Ok tt, snoc st3 (EPrint MBackupFailedAbort)).
Proof.
  eexists.
  refine (migrate_stops_when_backup_fails ok_check ok_check
            (sample_world ["localhost"; "h"] 1 0)
            (args_of Migrate None (Some sample_url)) sample_url st0 _ _ _ sample_target
            eq_refl eq_refl ltac:(discriminate) eq_refl eq_refl eq_refl eq_refl).
Defined.

(** [pg_restore] is not installed. *)
Lemma migrate_reports_failed_restore_witness :
  exists st4,
    main ok_check ok_check (dump_only_world not_found)
         (args_of Migrate None (Some sample_url)) st0
    = (Ok tt, snoc st4 (EPrint MMigrationFailedRestore)).
Proof.
  eexists.
  refine (proj1 (migrate_reports_failed_restore ok_check ok_check
                   (dump_only_world not_found)
                   (args_of Migrate None (Some sample_url)) sample_url st0 _ _ _ _
                   sample_target sample_name
                   eq_refl eq_refl ltac:(discriminate) eq_refl eq_refl eq_refl eq_refl
                   eq_refl)).
Defined.

(** [pg_restore] is there but may not be executed. *)
Lemma migrate_restore_raises_witness :
  exists st4,
    main ok_check ok_check (dump_only_world denied)
         (args_of Migrate None (Some sample_url)) st0
    = (Raise denied, st4).
Proof.
  eexists.
  refine (proj1 (migrate_restore_raises ok_check ok_check (dump_only_world denied)
                   (args_of Migrate None (Some sample_url)) sample_url st0 _ _ _ _
                   sample_target sample_name denied
                   eq_refl eq_refl ltac:(discriminate) eq_refl eq_refl eq_refl eq_refl
                   eq_refl)).
Defined.

Lemma tool_free_actions_are_quiet_witness :
  quiet st0 (snd (main ok_check ok_check bare_world (args_of Info None None) st0)).
Proof.
  exact (tool_free_actions_are_quiet ok_check ok_check bare_world
           (args_of Info None None) st0 _ _ eq_refl eq_refl).
Defined.

Lemma main_starts_only_pg_tools_witness :
  exists st',
    main ok_check ok_check (sample_world [] 0 1)
         (args_of Restore (Some "db.dump") (Some sample_url)) st0 = (Ok tt, st') /\
    only (fun e => is_pg_tool e = true) st0 st'.
Proof.
  eexists. split; [reflexivity |].
  exact (main_starts_only_pg_tools ok_check ok_check (sample_world [] 0 1)
           (args_of Restore (Some "db.dump") (Some sample_url)) st0 _ _ eq_refl).
Defined.

Lemma restore_action_never_connects_witness :
  only (fun e => is_connect e = false) st0
       (snd (main ok_check ok_check (sample_world [] 0 1)
                  (args_of Restore (Some "db.dump") (Some sample_url)) st0)).
Proof.
  exact (restore_action_never_connects ok_check ok_check (sample_world [] 0 1)
           (args_of Restore (Some "db.dump") (Some sample_url)) st0 _ _ eq_refl eq_refl).
Defined.

(** The URL names no password. *)
Lemma restore_action_incomplete_url_raises_witness :
  exists e,
    main ok_check ok_check (sample_world [] 0 0)
         (args_of Restore (Some "db.dump") (Some no_password_url)) st0
    = (Raise e, snoc st0 (EPrint (MRestoring "db.dump"))) /\
    exn_cls e = TypeError.
Proof.
  apply (restore_action_incomplete_url_raises ok_check ok_check (sample_world [] 0 0)
           (args_of Restore (Some "db.dump") (Some no_password_url))
           "db.dump" no_password_url no_password_target st0);
    first [reflexivity | discriminate].
Defined.

(** [pg_restore] is not installed: the action still ends normally. *)
Lemma restore_action_drops_the_answer_witness :
  exists st',
    main ok_check ok_check bare_world
         (args_of Restore (Some "db.dump") (Some sample_url)) st0 = (Ok tt, st') /\
    last_event st' = Some (EPrint MPgRestoreNotFound).
Proof.
  eexists. split.
  - refine (restore_action_drops_the_answer ok_check ok_check bare_world
              (args_of Restore (Some "db.dump") (Some sample_url))
              "db.dump" sample_url sample_target st0 false _
              eq_refl eq_refl ltac:(discriminate) eq_refl ltac:(discriminate) eq_refl eq_refl).
  - reflexivity.
Defined.

(** Without [pg_dump] the [backup] action stops after the backup. *)
Lemma backup_action_outcome_witness :
  exists st1,
    main ok_check ok_check bare_world (args_of Backup None None) st0 = (Ok tt, st1) /\
    last_event st1 = Some (EPrint MPgDumpNotFound).
Proof.
  eexists. split.
  - refine (proj1 (backup_action_outcome ok_check ok_check bare_world
                     (args_of Backup None None) st0 eq_refl) _ eq_refl).
  - reflexivity.
Defined.

(** The sum of the row counters is [NULL]. *)
Lemma info_rows_default_to_zero_witness :
  exists info st',
    get_database_info hollow_world sample_target st0 = (Ok (Some info), st') /\
    info_rows info = VInt 0.
Proof.
  eexists _, _. split; [reflexivity |].
  destruct (info_rows_default_to_zero hollow_world sample_target st0 _ _ eq_refl)
    as [_ [H | H]]; [exact H | discriminate H].
Defined.

Lemma info_closes_only_on_success_witness :
  only (fun e => is_close e = false) st0
       (snd (get_database_info bare_world sample_target st0)).
Proof.
  destruct (proj2 (info_closes_only_on_success bare_world sample_target st0 None _
                     eq_refl eq_refl) eq_refl)
    as [H | (size & s1 & tables & s2 & r0 & s3 & e & _ & _ & _ & Hcl & _)].
  - exact H.
  - discriminate Hcl.
Defined.

(** Port [0080] is kept as [80]. *)
Lemma parse_database_url_port_witness :
  exists cfg,
    parse_database_url ok_check ok_check "postgresql://h:0080/db" = Ok cfg /\
    port cfg = "80".
Proof.
  destruct (parse_database_url_port ok_check ok_check "postgresql://h:0080/db" _ 80
              eq_refl eq_refl) as (cfg & Hcfg & _ & H).
  exists cfg. split; [exact Hcfg |].
  destruct (H ltac:(discriminate)) as [-> _]. reflexivity.
Defined.

Lemma parse_database_url_bad_port_witness :
  exists e,
    parse_database_url ok_check ok_check "postgresql://h:99999/db" = Raise e /\
    exn_cls e = ValueError.
Proof.
  apply (parse_database_url_bad_port ok_check ok_check "postgresql://h:99999/db" _ "99999"
           eq_refl eq_refl).
  right. reflexivity.
Defined.

Lemma synthesized_names_tell_seconds_apart_witness :
  same_second sample_now
    {| year := 2024; month := 3; day := 7; hour := 9; minute := 5; second := 1;
       microsecond := 0 |}.
Proof.
  apply (synthesized_names_tell_seconds_apart bare_world);
    [unfold valid_datetime; cbn; lia .. | reflexivity].
Defined.

Lemma backup_reports_missing_archive_as_missing_tool_witness :
  exists st',
    backup_database hollow_world None st0 = (Ok None, st') /\
    last_event st' = Some (EPrint MPgDumpNotFound) /\
    In (EPrint (MBackupCreated sample_name)) (trace st').
Proof.
  apply (backup_reports_missing_archive_as_missing_tool hollow_world None st0
           {| returncode := 0; stderr := "" |} ∅); reflexivity.
Defined.

Lemma restore_raises_what_it_does_not_handle_witness :
  complete no_password_target = false.
Proof.
  destruct (restore_raises_what_it_does_not_handle (sample_world [] 0 0) "db.dump"
              no_password_target st0 _ _ eq_refl) as [[H _] | (argv & pw & fs & _ & H & _)].
  - exact H.
  - discriminate H.
Defined.

Lemma backup_returns_the_given_path_witness :
  exists n st',
    backup_database (sample_world [] 0 0) (Some "mine.dump") st0 = (Ok (Some "mine.dump"), st') /\
    files st' !! "mine.dump" = Some n.
Proof.
  destruct (backup_returns_the_given_path (sample_world [] 0 0) (Some "mine.dump") st0
              "mine.dump" _ eq_refl eq_refl) as (_ & [n Hn] & _).
  exists n. eexists. split; [reflexivity | exact Hn].
Defined.

Lemma password_stays_off_the_command_line_witness :
  pg_dump_cmd secret_world "db.dump" = pg_dump_cmd (sample_world [] 0 0) "db.dump".
Proof.
  apply (proj1 (password_stays_off_the_command_line (sample_world [] 0 0) "db.dump")).
  intros name Hne. cbn.
  destruct (String.eqb_spec name "DB_PASSWORD"); [contradiction | reflexivity].
Defined.

(** Nothing answers: both probes are made all the same. *)
Lemma test_action_probes_both_witness :
  exists st2,
    main ok_check ok_check (sample_world [] 0 0) (args_of Test None (Some sample_url)) st0
    = (Ok tt, st2) /\
    In (EConnect sample_target) (trace st2).
Proof.
  destruct (test_action_probes_both ok_check ok_check (sample_world [] 0 0)
              (args_of Test None (Some sample_url)) sample_url sample_target st0
              eq_refl eq_refl ltac:(discriminate) eq_refl)
    as (b1 & st1 & b2 & st2 & _ & _ & Hmain & Hin).
  now exists st2.
Defined.
